(** * mcp_clockify: the request/response layer of [src/index.ts]

    A shallow embedding of the Clockify tool server: the HTTP Gateway
    [makeAPIRequest], the result builders [sendResponse] and
    [responseWrapper], and the eight registered tool handlers, followed by
    the properties the specification states about them.

    Conventions.
    - [async]/[await] is sequential composition: the program is single
      threaded and every handler awaits each promise it creates.
    - A computation is a function from a [World] to a completion (a value
      or a thrown error) and the next [World].  The world holds what the
      code reads from its surroundings (the process environment, the
      network) and a [trace] of what it did to them.
    - Strings are sequences of bytes (well-formed UTF-8 text). *)

From Stdlib Require Import ZArith QArith List String Ascii Bool Lia DecimalString.
Import ListNotations.
Local Open Scope string_scope.
Local Open Scope Z_scope.

Set Implicit Arguments.
Set Warnings "-register-all".

(* ================================================================== *)
(** ** The JavaScript runtime *)

(** A double. Every finite double is a rational; [JSON.parse] overflows to
    an infinity and [NaN] is what [zod] calls "nan". *)
Inductive number : Type :=
  | Finite (q : Q)
  | NaN
  | Infinity (negative : bool).

(** What the host gives and the program cannot compute by itself: the
    decimal rendering of a finite double ([Number::toString]) and the
    reading of a date string in the local time zone ([Date.parse], in
    milliseconds since the epoch, [None] for [NaN]). *)
Class Host : Type := {
  Number_toString : Q -> string;
  Date_parse : string -> option Z
}.

(** A JSON tree, as [response.json()] delivers it. *)
Inductive json : Type :=
  | JNull
  | JBool (b : bool)
  | JNum (n : number)
  | JStr (s : string)
  | JArr (items : list json)
  | JObj (fields : list (string * json)).

(** A JavaScript value of the kinds this program handles. An object is its
    own properties in enumeration order. *)
Inductive value : Type :=
  | Undefined
  | Null
  | Bool (b : bool)
  | Num (n : number)
  | Str (s : string)
  | Arr (items : list value)
  | Obj (fields : list (string * value)).

Fixpoint of_json (j : json) : value :=
  match j with
  | JNull => Null
  | JBool b => Bool b
  | JNum n => Num n
  | JStr s => Str s
  | JArr items => Arr (map of_json items)
  | JObj fields =>
      Obj ((fix go (fs : list (string * json)) : list (string * value) :=
              match fs with
              | [] => []
              | (k, x) :: rest => (k, of_json x) :: go rest
              end) fields)
  end.

(** A thrown [Error] object: its class name and its [message]. The
    Gateway and the handlers throw nothing else (no [null], no bare
    string), so a thrown value always has a [message]. *)
Record JsError : Type := { err_name : string; message : string }.

Definition Error (msg : string) : JsError := {| err_name := "Error"; message := msg |}.
Definition TypeError (msg : string) : JsError := {| err_name := "TypeError"; message := msg |}.
Definition RangeError (msg : string) : JsError := {| err_name := "RangeError"; message := msg |}.
Definition SyntaxError (msg : string) : JsError := {| err_name := "SyntaxError"; message := msg |}.

(** How an evaluation ends. *)
Inductive Completion (A : Type) : Type :=
  | Ok (a : A)
  | Throw (e : JsError).
Arguments Ok {A} a.
Arguments Throw {A} e.

(** *** Property access *)

Fixpoint lookup (A : Type) (k : string) (fields : list (string * A)) : option A :=
  match fields with
  | [] => None
  | (k', x) :: rest => if String.eqb k k' then Some x else lookup k rest
  end.

Definition sq : string := "'".

(** [v.k], for the property names the handlers use: none of them is a
    built-in property of an array, a string, a number or a boolean, so
    only an object can hold it. Reading from [undefined] or [null] throws
    (message as in V8). *)
Definition get (v : value) (k : string) : Completion value :=
  match v with
  | Undefined =>
      Throw (TypeError ("Cannot read properties of undefined (reading " ++ sq ++ k ++ sq ++ ")"))
  | Null =>
      Throw (TypeError ("Cannot read properties of null (reading " ++ sq ++ k ++ sq ++ ")"))
  | Obj fields =>
      Ok (match lookup k fields with Some x => x | None => Undefined end)
  | _ => Ok Undefined
  end.

(** *** JSON.stringify *)

Definition dq : string := String (ascii_of_nat 34) "".
Definition backslash : string := String (ascii_of_nat 92) "".

(** A lower-case hexadecimal digit. *)
Definition hex_digit (n : nat) : ascii :=
  if Nat.ltb n 10 then ascii_of_nat (48 + n) else ascii_of_nat (87 + n).

Definition quote_char (c : ascii) : string :=
  let n := nat_of_ascii c in
  if Nat.eqb n 34 then backslash ++ dq
  else if Nat.eqb n 92 then backslash ++ backslash
  else if Nat.eqb n 8 then backslash ++ "b"
  else if Nat.eqb n 9 then backslash ++ "t"
  else if Nat.eqb n 10 then backslash ++ "n"
  else if Nat.eqb n 12 then backslash ++ "f"
  else if Nat.eqb n 13 then backslash ++ "r"
  else if Nat.ltb n 32 then
    backslash ++ "u00" ++ String (hex_digit (Nat.div n 16)) (String (hex_digit (Nat.modulo n 16)) "")
  else String c "".

Fixpoint quote_chars (s : string) : string :=
  match s with
  | EmptyString => ""
  | String c rest => quote_char c ++ quote_chars rest
  end.

Definition QuoteJSONString (s : string) : string := dq ++ quote_chars s ++ dq.

Section Stringify.
Context {host : Host}.

Definition number_to_json (n : number) : string :=
  match n with
  | Finite q => Number_toString q
  | _ => "null"
  end.

(** [JSON.stringify v]: [None] is [undefined]. Inside an array
    [undefined] prints as [null]; a property whose value is [undefined]
    is left out. *)
Fixpoint JSON_stringify (v : value) : option string :=
  match v with
  | Undefined => None
  | Null => Some "null"
  | Bool b => Some (if b then "true" else "false")
  | Num n => Some (number_to_json n)
  | Str s => Some (QuoteJSONString s)
  | Arr items =>
      Some ("[" ++ String.concat ","
              (map (fun x => match JSON_stringify x with
                             | Some s => s
                             | None => "null"
                             end) items) ++ "]")
  | Obj fields =>
      Some ("{" ++ String.concat ","
              ((fix props (fs : list (string * value)) : list string :=
                  match fs with
                  | [] => []
                  | (k, x) :: rest =>
                      match JSON_stringify x with
                      | Some s => (QuoteJSONString k ++ ":" ++ s) :: props rest
                      | None => props rest
                      end
                  end) fields) ++ "}")
  end.

(** [String(n)], as a template literal renders a number. *)
Definition number_to_string (n : number) : string :=
  match n with
  | Finite q => Number_toString q
  | NaN => "NaN"
  | Infinity false => "Infinity"
  | Infinity true => "-Infinity"
  end.
End Stringify.

(** An integer in a template literal. *)
Definition Z_to_string (z : Z) : string := NilZero.string_of_int (Z.to_int z).

(* ================================================================== *)
(** ** The world and the computations over it *)

Inductive Method : Type := GET | POST | PUT | DELETE.

(** What [fetch] is given. [req_url] is the text handed to [fetch], before
    [fetch] parses it as a URL. *)
Record Request : Type := {
  req_url : string;
  req_headers : list (string * string);
  req_method : Method;
  req_body : option string
}.

(** A received HTTP response: its status line and what reading the body
    gives, as text and as JSON. *)
Record Response : Type := {
  status : Z;
  text_outcome : Completion string;
  json_outcome : Completion json
}.

(** [response.ok]: the status is an ok status, 200 to 299 inclusive. *)
Definition ok (r : Response) : bool := (200 <=? status r) && (status r <=? 299).

Inductive Event : Type :=
  | EvFetch (req : Request)
  | EvText
  | EvJson.

Record World : Type := {
  CLOCKIFY_API_KEY : option string;
  network : Request -> Completion Response;
  trace : list Event
}.

Definition M (A : Type) : Type := World -> Completion A * World.

Definition ret (A : Type) (a : A) : M A := fun w => (Ok a, w).

Definition throw (A : Type) (e : JsError) : M A := fun w => (Throw e, w).
Arguments throw {A} e.

Definition bind (A B : Type) (m : M A) (k : A -> M B) : M B :=
  fun w =>
    match m w with
    | (Ok a, w') => k a w'
    | (Throw e, w') => (Throw e, w')
    end.

Definition try_catch (A : Type) (body : M A) (handler : JsError -> M A) : M A :=
  fun w =>
    match body w with
    | (Ok a, w') => (Ok a, w')
    | (Throw e, w') => handler e w'
    end.

Definition lift (A : Type) (c : Completion A) : M A := fun w => (c, w).

Notation "'let*' x ':=' 'await' m 'in' k" := (bind m (fun x => k))
  (at level 10, x name, m at level 100, k at level 200).
Notation "'await' m ';;' k" := (bind m (fun _ => k))
  (at level 10, m at level 100, k at level 200).

Definition record (ev : Event) (w : World) : World :=
  {| CLOCKIFY_API_KEY := CLOCKIFY_API_KEY w;
     network := network w;
     trace := trace w ++ [ev] |}.

Definition fetch (req : Request) : M Response :=
  fun w => (network w req, record (EvFetch req) w).

Definition response_text (r : Response) : M string :=
  fun w => (text_outcome r, record EvText w).

Definition response_json (r : Response) : M value :=
  fun w => (match json_outcome r with
            | Ok j => Ok (of_json j)
            | Throw e => Throw e
            end, record EvJson w).

(** The requests a run issued. *)
Fixpoint requests (t : list Event) : list Request :=
  match t with
  | [] => []
  | EvFetch req :: rest => req :: requests rest
  | _ :: rest => requests rest
  end.

(* ================================================================== *)
(** ** The HTTP Gateway, [makeAPIRequest] *)

Definition MCP_NAME : string := "mcp_clockify".
Definition VERSION : string := "1.0.19".
Definition CLOCKIFY_API_BASE : string := "https://api.clockify.me/api/v1".
Definition USER_AGENT : string := MCP_NAME ++ "/" ++ VERSION.

(** The [body] parameter, [string | object]. *)
Inductive Body : Type :=
  | BodyString (s : string)
  | BodyObject (v : value).

Section Gateway.
Context {host : Host}.

(** [typeof body === "object" ? JSON.stringify(body) : body] *)
Definition encode_body (body : option Body) : option string :=
  match body with
  | None => None
  | Some (BodyString s) => Some s
  | Some (BodyObject v) => JSON_stringify v
  end.

(** The headers of every call and the request [fetch] is given. *)
Definition headers (key : string) : list (string * string) :=
  [ ("User-Agent", USER_AGENT);
    ("Accept", "application/json");
    ("x-api-key", key);
    ("Content-Type", "application/json") ].

Definition api_request (key url : string) (method : Method) (body : option Body)
  : Request :=
  {| req_url := CLOCKIFY_API_BASE ++ url;
     req_headers := headers key;
     req_method := method;
     req_body := encode_body body |}.

Definition makeAPIRequest (url : string) (method : Method) (body : option Body)
  : M value :=
  fun w =>
    match CLOCKIFY_API_KEY w with
    | None | Some EmptyString => throw (Error "Missing Clockify API key") w
    | Some key =>
        try_catch
          (let* response := await fetch (api_request key url method body) in
           if negb (ok response) then
             let* errorText := await response_text response in
             throw (Error ("HTTP error! status: " ++ Z_to_string (status response)
                           ++ ", response: " ++ errorText))
           else if status response =? 204 then ret (Obj [])
           else response_json response)
          (fun error =>
             throw (Error ("Error making Clockify API request: " ++ message error)))
          w
    end.
End Gateway.

(* ================================================================== *)
(** ** Tool results: [sendResponse] and [responseWrapper] *)

(** One item of a tool result. [text] is [None] when the field holds
    [undefined]. *)
Record ContentItem : Type := { type : string; text : option string }.

Record CallToolResult : Type := { content : list ContentItem }.

Section Results.
Context {host : Host}.

(** The default [text = ""] replaces an [undefined] argument. *)
Definition sendResponse (type : string) (text : value) : CallToolResult :=
  let text := match text with Undefined => Str "" | _ => text end in
  {| content :=
       [ {| type := type;
            text := match text with
                    | Str s => Some s
                    | _ => JSON_stringify text
                    end |} ] |}.

Definition responseWrapper (fn : M CallToolResult) : M CallToolResult :=
  try_catch fn
    (fun error => ret (sendResponse "text" (Str ("Error: " ++ message error)))).
End Results.

(* ================================================================== *)
(** ** Dates: [new Date(string)] and [toISOString] *)

Module DateTime.

Definition msPerDay : Z := 86400000.
Definition msPerHour : Z := 3600000.
Definition msPerMinute : Z := 60000.
Definition msPerSecond : Z := 1000.

(** The largest time value a [Date] holds, 100 000 000 days. *)
Definition maxTime : Z := 8640000000000000.

Definition Day (t : Z) : Z := t / msPerDay.
Definition TimeWithinDay (t : Z) : Z := t mod msPerDay.

Definition DaysInYear (y : Z) : Z :=
  if negb (y mod 4 =? 0) then 365
  else if negb (y mod 100 =? 0) then 366
  else if negb (y mod 400 =? 0) then 365
  else 366.

Definition DayFromYear (y : Z) : Z :=
  365 * (y - 1970) + (y - 1969) / 4 - (y - 1901) / 100 + (y - 1601) / 400.

(** The year a day number falls in: the estimate from the mean length of
    a year is off by one at most. *)
Definition YearFromDay (d : Z) : Z :=
  let y := 1970 + (d * 400) / 146097 in
  if d <? DayFromYear y then y - 1
  else if DayFromYear (y + 1) <=? d then y + 1
  else y.

Definition YearFromTime (t : Z) : Z := YearFromDay (Day t).

Definition DayWithinYear (t : Z) : Z := Day t - DayFromYear (YearFromTime t).

(** 1 in a leap year, 0 otherwise. *)
Definition LeapDays (y : Z) : Z := if DaysInYear y =? 366 then 1 else 0.

Definition InLeapYear (t : Z) : Z := LeapDays (YearFromTime t).

(** The day within the year on which month [m] (0 to 11) begins. *)
Definition MonthStart (leap m : Z) : Z :=
  if m <=? 0 then 0
  else if m =? 1 then 31
  else if m =? 2 then 59 + leap
  else if m =? 3 then 90 + leap
  else if m =? 4 then 120 + leap
  else if m =? 5 then 151 + leap
  else if m =? 6 then 181 + leap
  else if m =? 7 then 212 + leap
  else if m =? 8 then 243 + leap
  else if m =? 9 then 273 + leap
  else if m =? 10 then 304 + leap
  else if m =? 11 then 334 + leap
  else 365 + leap.

Definition MonthFromTime (t : Z) : Z :=
  let d := DayWithinYear t in
  let leap := InLeapYear t in
  if d <? 31 then 0
  else if d <? 59 + leap then 1
  else if d <? 90 + leap then 2
  else if d <? 120 + leap then 3
  else if d <? 151 + leap then 4
  else if d <? 181 + leap then 5
  else if d <? 212 + leap then 6
  else if d <? 243 + leap then 7
  else if d <? 273 + leap then 8
  else if d <? 304 + leap then 9
  else if d <? 334 + leap then 10
  else 11.

Definition DateFromTime (t : Z) : Z :=
  DayWithinYear t - MonthStart (InLeapYear t) (MonthFromTime t) + 1.

Definition HourFromTime (t : Z) : Z := (t / msPerHour) mod 24.
Definition MinFromTime (t : Z) : Z := (t / msPerMinute) mod 60.
Definition SecFromTime (t : Z) : Z := (t / msPerSecond) mod 60.
Definition msFromTime (t : Z) : Z := t mod msPerSecond.

(** *** Decimal fields of a fixed width *)

Definition digit_char (n : Z) : ascii := ascii_of_nat (48 + Z.to_nat n).

(** The [w] low decimal digits of [n], the most significant first. *)
Fixpoint digits (w : nat) (n : Z) : string :=
  match w with
  | O => ""
  | S w' => String (digit_char ((n / 10 ^ Z.of_nat w') mod 10)) (digits w' n)
  end.

(** Four digits for the years 0 to 9999, a sign and six digits
    otherwise. *)
Definition year_text (y : Z) : string :=
  if (0 <=? y) && (y <=? 9999) then digits 4 y
  else (if y <? 0 then "-" else "+") ++ digits 6 (Z.abs y).

Definition iso_text (t : Z) : string :=
  (year_text (YearFromTime t) ++ "-" ++ digits 2 (MonthFromTime t + 1)
     ++ "-" ++ digits 2 (DateFromTime t)
     ++ "T" ++ digits 2 (HourFromTime t)
     ++ ":" ++ digits 2 (MinFromTime t)
     ++ ":" ++ digits 2 (SecFromTime t)
     ++ "." ++ digits 3 (msFromTime t) ++ "Z").

(** *** The [Date] object *)

(** A [Date] is its time value; [None] is the invalid date. *)
Definition Date : Type := option Z.

Definition TimeClip (t : Z) : Date :=
  if Z.abs t <=? maxTime then Some t else None.

Definition new_Date {host : Host} (s : string) : Date :=
  match Date_parse s with
  | Some t => TimeClip t
  | None => None
  end.

Definition toISOString (d : Date) : Completion string :=
  match d with
  | None => Throw (RangeError "Invalid time value")
  | Some t => Ok (iso_text t)
  end.

(** *** Reading a UTC instant string

    The instant that a string of the form [YYYY-MM-DDTHH:mm:ss.sssZ]
    (or with an expanded year, [+YYYYYY] or [-YYYYYY]) denotes. This is
    the receiving side's reading, here to state what the transmitted
    text means. *)

Definition digit_val (c : ascii) : option Z :=
  let n := nat_of_ascii c in
  if (Nat.leb 48 n && Nat.leb n 57)%bool then Some (Z.of_nat n - 48) else None.

Fixpoint read_digits (w : nat) (acc : Z) (s : string) : option (Z * string) :=
  match w with
  | O => Some (acc, s)
  | S w' =>
      match s with
      | String c rest =>
          match digit_val c with
          | Some d => read_digits w' (10 * acc + d) rest
          | None => None
          end
      | EmptyString => None
      end
  end.

Definition expect (c : ascii) (s : string) : option string :=
  match s with
  | String c' rest => if Ascii.eqb c c' then Some rest else None
  | EmptyString => None
  end.

Definition MakeTime (h m s ms : Z) : Z :=
  h * msPerHour + m * msPerMinute + s * msPerSecond + ms.

Definition MakeDay (y m dt : Z) : Z :=
  DayFromYear y + MonthStart (LeapDays y) m + dt - 1.

Definition MakeDate (day time : Z) : Z := day * msPerDay + time.

Definition DaysInMonth (y m : Z) : Z :=
  MonthStart (LeapDays y) (m + 1) - MonthStart (LeapDays y) m.

Definition read_year (s : string) : option (Z * string) :=
  match s with
  | String c rest =>
      if Ascii.eqb c "+" then read_digits 6 0 rest
      else if Ascii.eqb c "-" then
        match read_digits 6 0 rest with
        | Some (y, rest') => if y =? 0 then None else Some (- y, rest')
        | None => None
        end
      else read_digits 4 0 s
  | EmptyString => None
  end.

Notation "'let?' p ':=' e 'in' k" :=
  (match e with Some p => k | None => None end)
  (at level 10, p pattern, e at level 100, k at level 200).

Definition UTC_instant (s : string) : option Z :=
  let? (y, s) := read_year s in
  let? s := expect "-" s in
  let? (mo, s) := read_digits 2 0 s in
  let? s := expect "-" s in
  let? (d, s) := read_digits 2 0 s in
  let? s := expect "T" s in
  let? (h, s) := read_digits 2 0 s in
  let? s := expect ":" s in
  let? (mi, s) := read_digits 2 0 s in
  let? s := expect ":" s in
  let? (sec, s) := read_digits 2 0 s in
  let? s := expect "." s in
  let? (ms, s) := read_digits 3 0 s in
  let? s := expect "Z" s in
  match s with
  | EmptyString =>
      if (1 <=? mo) && (mo <=? 12) && (1 <=? d) && (d <=? DaysInMonth y (mo - 1))
         && (h <? 24) && (mi <? 60) && (sec <? 60)
      then Some (MakeDate (MakeDay y (mo - 1) d) (MakeTime h mi sec ms))
      else None
  | _ => None
  end.

End DateTime.

(* ================================================================== *)
(** ** The tool handlers *)

Notation "'let!' x ':=' e 'in' k" :=
  (match e with Ok x => k | Throw err => Throw err end)
  (at level 10, x name, e at level 100, k at level 200).

Fixpoint map_completion (A B : Type) (f : A -> Completion B) (l : list A)
  : Completion (list B) :=
  match l with
  | [] => Ok []
  | x :: rest =>
      let! y := f x in
      let! ys := map_completion f rest in
      Ok (y :: ys)
  end.

(** [response.map(callback)]: reading [map] from [null] throws, and only
    an array has a [map] to call. The callback runs on the items in
    order. *)
Definition response_map (response : value) (callback : value -> Completion value)
  : Completion value :=
  let! _ := get response "map" in
  match response with
  | Arr items =>
      let! items' := map_completion callback items in
      Ok (Arr items')
  | _ => Throw (TypeError "response.map is not a function")
  end.

Module GetUser.
Definition tool_name : string := "get-clockify-user".

Definition body {host : Host} : M CallToolResult :=
  let* response := await makeAPIRequest "/user" GET None in
  lift (let! id := get response "id" in
        let! email := get response "email" in
        let! name := get response "name" in
        let! activeWorkspace := get response "activeWorkspace" in
        let! defaultWorkspace := get response "defaultWorkspace" in
        Ok (sendResponse "text"
              (Obj [ ("id", id);
                     ("email", email);
                     ("name", name);
                     ("activeWorkspace", activeWorkspace);
                     ("defaultWorkspace", defaultWorkspace) ]))).

Definition handler {host : Host} : M CallToolResult := responseWrapper body.
End GetUser.

Module ListWorkspaces.
Definition tool_name : string := "list-clockify-workspaces".

Definition body {host : Host} : M CallToolResult :=
  let* response := await makeAPIRequest "/workspaces" GET None in
  lift (let! reduced :=
          response_map response (fun workspace =>
            let! id := get workspace "id" in
            let! name := get workspace "name" in
            Ok (Obj [ ("id", id); ("name", name) ])) in
        Ok (sendResponse "text" reduced)).

Definition handler {host : Host} : M CallToolResult := responseWrapper body.
End ListWorkspaces.

Module ListProjects.
Definition tool_name : string := "list-clockify-projects".

Record Input : Type := { workspaceId : string; name : option string }.

(** [input.name || ""] *)
Definition name_or_empty (input : Input) : string :=
  match name input with
  | Some s => s
  | None => ""
  end.

Definition body {host : Host} (input : Input) : M CallToolResult :=
  let* response := await
    makeAPIRequest
      ("/workspaces/" ++ workspaceId input
         ++ "/projects?archived=false&page=1&page-size=5000&name="
         ++ name_or_empty input)
      GET None in
  lift (let! reduced :=
          response_map response (fun project =>
            let! id := get project "id" in
            let! name := get project "name" in
            let! workspaceId := get project "workspaceId" in
            let! billable := get project "billable" in
            Ok (Obj [ ("id", id);
                      ("name", name);
                      ("workspaceId", workspaceId);
                      ("billable", billable) ])) in
        Ok (sendResponse "text" reduced)).

Definition handler {host : Host} (input : Input) : M CallToolResult :=
  responseWrapper (body input).
End ListProjects.

Module ListTasks.
Definition tool_name : string := "list-clockify-tasks".

Record Input : Type := { workspaceId : string; projectId : string }.

Definition body {host : Host} (input : Input) : M CallToolResult :=
  let* response := await
    makeAPIRequest
      ("/workspaces/" ++ workspaceId input ++ "/projects/" ++ projectId input ++ "/tasks")
      GET None in
  lift (let! reduced :=
          response_map response (fun task =>
            let! id := get task "id" in
            let! name := get task "name" in
            let! projectId := get task "projectId" in
            Ok (Obj [ ("id", id); ("name", name); ("projectId", projectId) ])) in
        Ok (sendResponse "text" reduced)).

Definition handler {host : Host} (input : Input) : M CallToolResult :=
  responseWrapper (body input).
End ListTasks.

Module ListTimeEntries.
Definition tool_name : string := "list-clockify-time-entries".

Record Input : Type := {
  workspaceId : string;
  userId : string;
  start : string;
  end_ : string;
  page : number;
  pageSize : number
}.

Definition body {host : Host} (input : Input) : M CallToolResult :=
  let* response := await
    makeAPIRequest
      ("/workspaces/" ++ workspaceId input ++ "/user/" ++ userId input
         ++ "/time-entries?start=" ++ start input ++ "&end=" ++ end_ input
         ++ "&page=" ++ number_to_string (page input)
         ++ "&page-size=" ++ number_to_string (pageSize input))
      GET None in
  ret (sendResponse "text" response).

Definition handler {host : Host} (input : Input) : M CallToolResult :=
  responseWrapper (body input).
End ListTimeEntries.

Module CreateTimeEntry.
Import DateTime.
Definition tool_name : string := "create-clockify-time-entry".

Record Input : Type := {
  workspaceId : string;
  billable : bool;
  description : string;
  start : string;
  end_ : string;
  projectId : string
}.

(** The object literal sent as the request body; its fields are
    evaluated in order, so an invalid [start] throws first. *)
Definition payload (input : Input) (start end_ : Date) : Completion value :=
  let! startISO := toISOString start in
  let! endISO := toISOString end_ in
  Ok (Obj [ ("billable", Bool (billable input));
            ("description", Str (description input));
            ("start", Str startISO);
            ("end", Str endISO);
            ("projectId", Str (projectId input)) ]).

Definition body {host : Host} (input : Input) (start end_ : Date) : M CallToolResult :=
  let* requestBody := await lift (payload input start end_) in
  let* response := await
    makeAPIRequest
      ("/workspaces/" ++ workspaceId input ++ "/time-entries")
      POST (Some (BodyObject requestBody)) in
  lift (let! id := get response "id" in
        let! description := get response "description" in
        let! timeInterval := get response "timeInterval" in
        let! start := get timeInterval "start" in
        let! timeInterval' := get response "timeInterval" in
        let! end_ := get timeInterval' "end" in
        let! projectId := get response "projectId" in
        Ok (sendResponse "text"
              (Obj [ ("id", id);
                     ("description", description);
                     ("start", start);
                     ("end", end_);
                     ("projectId", projectId) ]))).

Definition handler {host : Host} (input : Input) : M CallToolResult :=
  let start := new_Date (start input) in
  let end_ := new_Date (end_ input) in
  responseWrapper (body input start end_).
End CreateTimeEntry.

Module UpdateTimeEntry.
Import DateTime.
Definition tool_name : string := "update-clockify-time-entry".

Record Input : Type := {
  timeEntryId : string;
  workspaceId : string;
  billable : bool;
  description : string;
  start : string;
  end_ : string;
  projectId : string
}.

Definition payload (input : Input) (start end_ : Date) : Completion value :=
  let! startISO := toISOString start in
  let! endISO := toISOString end_ in
  Ok (Obj [ ("billable", Bool (billable input));
            ("description", Str (description input));
            ("start", Str startISO);
            ("end", Str endISO);
            ("projectId", Str (projectId input)) ]).

Definition body {host : Host} (input : Input) (start end_ : Date) : M CallToolResult :=
  let* requestBody := await lift (payload input start end_) in
  let* response := await
    makeAPIRequest
      ("/workspaces/" ++ workspaceId input ++ "/time-entries/" ++ timeEntryId input)
      PUT (Some (BodyObject requestBody)) in
  lift (let! id := get response "id" in
        let! description := get response "description" in
        let! timeInterval := get response "timeInterval" in
        let! start := get timeInterval "start" in
        let! timeInterval' := get response "timeInterval" in
        let! end_ := get timeInterval' "end" in
        let! projectId := get response "projectId" in
        Ok (sendResponse "text"
              (Obj [ ("id", id);
                     ("description", description);
                     ("start", start);
                     ("end", end_);
                     ("projectId", projectId) ]))).

Definition handler {host : Host} (input : Input) : M CallToolResult :=
  let start := new_Date (start input) in
  let end_ := new_Date (end_ input) in
  responseWrapper (body input start end_).
End UpdateTimeEntry.

Module DeleteTimeEntry.
Definition tool_name : string := "delete-clockify-time-entry".

Record Input : Type := { timeEntryId : string; workspaceId : string }.

Definition body {host : Host} (input : Input) : M CallToolResult :=
  await makeAPIRequest
          ("/workspaces/" ++ workspaceId input ++ "/time-entries/" ++ timeEntryId input)
          DELETE None ;;
  ret (sendResponse "text" (Obj [ ("message", Str "Time entry deleted successfully.") ])).

Definition handler {host : Host} (input : Input) : M CallToolResult :=
  responseWrapper (body input).
End DeleteTimeEntry.

(* ================================================================== *)
(** ** Input schemas and the tool registry *)

Module Zod.

(** The type tags of the validator's reports. *)
Inductive ParsedType : Type :=
  | TString | TNumber | TNan | TBoolean | TUndefined | TNull | TArray | TObject.

Definition getParsedType (v : value) : ParsedType :=
  match v with
  | Undefined => TUndefined
  | Null => TNull
  | Bool _ => TBoolean
  | Num NaN => TNan
  | Num _ => TNumber
  | Str _ => TString
  | Arr _ => TArray
  | Obj _ => TObject
  end.

Inductive IssueCode : Type :=
  | invalid_type (expected received : ParsedType)
  | too_small (minimum : Q).

(** One report: what is wrong and at which parameter. *)
Record ZodIssue : Type := { code : IssueCode; path : list string }.

Inductive Validation (A : Type) : Type :=
  | Valid (a : A)
  | Invalid (issues : list ZodIssue).
Arguments Valid {A} a.
Arguments Invalid {A} issues.

(** Modelled from the spec: the schema validator is a library, not in
    [src/]. "Parameter schema enforces types and required/optional
    status"; a validation error is a "missing required field, wrong type,
    out-of-range number". A schema with output type [A] is its parser, run
    at a path; the combinators below are the ones [src/index.ts] builds
    its schemas from. *)
Definition Schema (A : Type) : Type := list string -> value -> Validation A.

Definition wrong_type (A : Type) (expected : ParsedType) (p : list string) (v : value)
  : Validation A :=
  Invalid [ {| code := invalid_type expected (getParsedType v); path := p |} ].
Arguments wrong_type {A} expected p v.

(** [z.string()] *)
Definition z_string : Schema string :=
  fun p v => match v with Str s => Valid s | _ => wrong_type TString p v end.

(** [z.boolean()] *)
Definition z_boolean : Schema bool :=
  fun p v => match v with Bool b => Valid b | _ => wrong_type TBoolean p v end.

(** [z.number()] *)
Definition z_number : Schema number :=
  fun p v =>
    match v with
    | Num NaN => wrong_type TNumber p v
    | Num n => Valid n
    | _ => wrong_type TNumber p v
    end.

(** [m <= n] on doubles. *)
Definition at_least (m : Q) (n : number) : bool :=
  match n with
  | Finite q => Qle_bool m q
  | NaN => false
  | Infinity negative => negb negative
  end.

(** [.min(m)]: checked once the type is right. *)
Definition z_min (m : Q) (s : Schema number) : Schema number :=
  fun p v =>
    match s p v with
    | Valid n =>
        if at_least m n then Valid n
        else Invalid [ {| code := too_small m; path := p |} ]
    | Invalid issues => Invalid issues
    end.

(** [.optional()]: [undefined] passes. *)
Definition z_optional (A : Type) (s : Schema A) : Schema (option A) :=
  fun p v =>
    match v with
    | Undefined => Valid None
    | _ => match s p v with
           | Valid a => Valid (Some a)
           | Invalid issues => Invalid issues
           end
    end.

(** [.default(d)]: [undefined] becomes [d]. It also stands for
    [.optional().default(d)], whose inner schema never meets
    [undefined]. *)
Definition z_default (A : Type) (d : A) (s : Schema A) : Schema A :=
  fun p v =>
    match v with
    | Undefined => Valid d
    | _ => s p v
    end.

Definition pure (A : Type) (a : A) : Validation A := Valid a.

(** Every parameter is checked and the reports are gathered. *)
Definition ap (A B : Type) (f : Validation (A -> B)) (x : Validation A) : Validation B :=
  match f, x with
  | Valid g, Valid a => Valid (g a)
  | Valid _, Invalid later => Invalid later
  | Invalid earlier, Valid _ => Invalid earlier
  | Invalid earlier, Invalid later => Invalid (earlier ++ later)
  end.

Definition property (fields : list (string * value)) (k : string) : value :=
  match lookup k fields with
  | Some x => x
  | None => Undefined
  end.

Definition field (A : Type) (fields : list (string * value)) (k : string)
           (s : Schema A) : Validation A :=
  s [k] (property fields k).

(** [z.object(shape)]: the arguments must be an object; keys outside the
    shape are dropped. *)
Definition z_object (A : Type) (shape : list (string * value) -> Validation A)
  : value -> Validation A :=
  fun v =>
    match v with
    | Obj fields => shape fields
    | _ => wrong_type TObject [] v
    end.

Definition issues_of (A : Type) (x : Validation A) : list ZodIssue :=
  match x with
  | Valid _ => []
  | Invalid issues => issues
  end.

End Zod.

Notation "f <*> x" := (Zod.ap f x) (at level 50, left associativity).

(** The [inputSchema] of each [server.registerTool] call. [billable] is
    [z.boolean().optional().default(true)]. *)
Module Schemas.
Import Zod.

Definition get_user : value -> Validation unit :=
  z_object (fun _ => pure tt).

Definition list_workspaces : value -> Validation unit :=
  z_object (fun _ => pure tt).

Definition list_projects : value -> Validation ListProjects.Input :=
  z_object (fun o =>
    pure ListProjects.Build_Input
      <*> field o "workspaceId" z_string
      <*> field o "name" (z_optional z_string)).

Definition list_tasks : value -> Validation ListTasks.Input :=
  z_object (fun o =>
    pure ListTasks.Build_Input
      <*> field o "workspaceId" z_string
      <*> field o "projectId" z_string).

Definition list_time_entries : value -> Validation ListTimeEntries.Input :=
  z_object (fun o =>
    pure ListTimeEntries.Build_Input
      <*> field o "workspaceId" z_string
      <*> field o "userId" z_string
      <*> field o "start" z_string
      <*> field o "end" z_string
      <*> field o "page" (z_default (Finite 1) (z_min 1 z_number))
      <*> field o "pageSize" (z_default (Finite 100) (z_min 1 z_number))).

Definition create_time_entry : value -> Validation CreateTimeEntry.Input :=
  z_object (fun o =>
    pure CreateTimeEntry.Build_Input
      <*> field o "workspaceId" z_string
      <*> field o "billable" (z_default true z_boolean)
      <*> field o "description" z_string
      <*> field o "start" z_string
      <*> field o "end" z_string
      <*> field o "projectId" z_string).

Definition update_time_entry : value -> Validation UpdateTimeEntry.Input :=
  z_object (fun o =>
    pure UpdateTimeEntry.Build_Input
      <*> field o "timeEntryId" z_string
      <*> field o "workspaceId" z_string
      <*> field o "billable" (z_default true z_boolean)
      <*> field o "description" z_string
      <*> field o "start" z_string
      <*> field o "end" z_string
      <*> field o "projectId" z_string).

Definition delete_time_entry : value -> Validation DeleteTimeEntry.Input :=
  z_object (fun o =>
    pure DeleteTimeEntry.Build_Input
      <*> field o "timeEntryId" z_string
      <*> field o "workspaceId" z_string).
End Schemas.

(** A registered tool: its name, its input schema and its callback. *)
Record RegisteredTool : Type := {
  tool_name : string;
  InputT : Type;
  inputSchema : value -> Zod.Validation InputT;
  callback : InputT -> M CallToolResult
}.

Section Registry.
Context {host : Host}.

(** The [server.registerTool] calls, in order. *)
Definition tools : list RegisteredTool :=
  [ {| tool_name := GetUser.tool_name;
       inputSchema := Schemas.get_user;
       callback := fun _ => GetUser.handler |};
    {| tool_name := ListWorkspaces.tool_name;
       inputSchema := Schemas.list_workspaces;
       callback := fun _ => ListWorkspaces.handler |};
    {| tool_name := ListProjects.tool_name;
       inputSchema := Schemas.list_projects;
       callback := ListProjects.handler |};
    {| tool_name := ListTasks.tool_name;
       inputSchema := Schemas.list_tasks;
       callback := ListTasks.handler |};
    {| tool_name := ListTimeEntries.tool_name;
       inputSchema := Schemas.list_time_entries;
       callback := ListTimeEntries.handler |};
    {| tool_name := CreateTimeEntry.tool_name;
       inputSchema := Schemas.create_time_entry;
       callback := CreateTimeEntry.handler |};
    {| tool_name := UpdateTimeEntry.tool_name;
       inputSchema := Schemas.update_time_entry;
       callback := UpdateTimeEntry.handler |};
    {| tool_name := DeleteTimeEntry.tool_name;
       inputSchema := Schemas.delete_time_entry;
       callback := DeleteTimeEntry.handler |} ].

(** How a tool call ends at the server. *)
Inductive CallOutcome : Type :=
  | ToolNotFound
  | InvalidArguments (issues : list Zod.ZodIssue)
  | Returned (c : Completion CallToolResult).

(** Modelled from the spec: the dispatch of a tool call, which belongs to
    the server library and is not in [src/]. "Parameter schema enforces
    types and required/optional status before the handler runs": the
    arguments are parsed with the tool's schema, a failure ends the call
    with the reports, and only parsed input reaches the callback. *)
Definition callTool (name : string) (args : value) (w : World) : CallOutcome * World :=
  match find (fun t => String.eqb (tool_name t) name) tools with
  | None => (ToolNotFound, w)
  | Some t =>
      match inputSchema t args with
      | Zod.Invalid issues => (InvalidArguments issues, w)
      | Zod.Valid input =>
          let (c, w') := callback t input w in
          (Returned c, w')
      end
  end.
End Registry.

(* ================================================================== *)
(** ** Tool calls past validation *)

(** A call that passed its schema: the tool and its parsed input. *)
Inductive Invocation : Type :=
  | CallGetUser
  | CallListWorkspaces
  | CallListProjects (input : ListProjects.Input)
  | CallListTasks (input : ListTasks.Input)
  | CallListTimeEntries (input : ListTimeEntries.Input)
  | CallCreateTimeEntry (input : CreateTimeEntry.Input)
  | CallUpdateTimeEntry (input : UpdateTimeEntry.Input)
  | CallDeleteTimeEntry (input : DeleteTimeEntry.Input).

Section Invocations.
Context {host : Host}.

(** The registered callback of the tool. *)
Definition handle (call : Invocation) : M CallToolResult :=
  match call with
  | CallGetUser => GetUser.handler
  | CallListWorkspaces => ListWorkspaces.handler
  | CallListProjects input => ListProjects.handler input
  | CallListTasks input => ListTasks.handler input
  | CallListTimeEntries input => ListTimeEntries.handler input
  | CallCreateTimeEntry input => CreateTimeEntry.handler input
  | CallUpdateTimeEntry input => UpdateTimeEntry.handler input
  | CallDeleteTimeEntry input => DeleteTimeEntry.handler input
  end.

(** The function the callback hands to [responseWrapper]. *)
Definition handler_body (call : Invocation) : M CallToolResult :=
  match call with
  | CallGetUser => GetUser.body
  | CallListWorkspaces => ListWorkspaces.body
  | CallListProjects input => ListProjects.body input
  | CallListTasks input => ListTasks.body input
  | CallListTimeEntries input => ListTimeEntries.body input
  | CallCreateTimeEntry input =>
      CreateTimeEntry.body input
        (DateTime.new_Date (CreateTimeEntry.start input))
        (DateTime.new_Date (CreateTimeEntry.end_ input))
  | CallUpdateTimeEntry input =>
      UpdateTimeEntry.body input
        (DateTime.new_Date (UpdateTimeEntry.start input))
        (DateTime.new_Date (UpdateTimeEntry.end_ input))
  | CallDeleteTimeEntry input => DeleteTimeEntry.body input
  end.
End Invocations.

(** The result that holds the one text [s]. *)
Definition text_result (s : string) : CallToolResult :=
  {| content := [ {| type := "text"; text := Some s |} ] |}.

(** A completion that, when it is a result, is one text item. *)
Definition one_text (c : Completion CallToolResult) : Prop :=
  match c with
  | Ok r => exists s, r = text_result s
  | Throw _ => True
  end.

(* ================================================================== *)
(** ** The declared parameters *)

Inductive ParamType : Type := PString | PNumber | PBoolean.

(** A parameter as the specification lists it: its name, its type, whether
    it is required, and its lower bound if it has one. *)
Record Param : Type := {
  param_name : string;
  param_type : ParamType;
  required : bool;
  minimum : option Q
}.

Definition req (k : string) (t : ParamType) : Param :=
  {| param_name := k; param_type := t; required := true; minimum := None |}.

Definition opt (k : string) (t : ParamType) (m : option Q) : Param :=
  {| param_name := k; param_type := t; required := false; minimum := m |}.

(** The table of tools and parameters. *)
Definition declared : list (string * list Param) :=
  [ ("get-clockify-user", []);
    ("list-clockify-workspaces", []);
    ("list-clockify-projects",
     [ req "workspaceId" PString; opt "name" PString None ]);
    ("list-clockify-tasks",
     [ req "workspaceId" PString; req "projectId" PString ]);
    ("list-clockify-time-entries",
     [ req "workspaceId" PString; req "userId" PString;
       req "start" PString; req "end" PString;
       opt "page" PNumber (Some 1%Q); opt "pageSize" PNumber (Some 1%Q) ]);
    ("create-clockify-time-entry",
     [ req "workspaceId" PString; opt "billable" PBoolean None;
       req "description" PString; req "start" PString; req "end" PString;
       req "projectId" PString ]);
    ("update-clockify-time-entry",
     [ req "timeEntryId" PString; req "workspaceId" PString;
       opt "billable" PBoolean None; req "description" PString;
       req "start" PString; req "end" PString; req "projectId" PString ]);
    ("delete-clockify-time-entry",
     [ req "timeEntryId" PString; req "workspaceId" PString ]) ].

Definition expected_tag (t : ParamType) : Zod.ParsedType :=
  match t with
  | PString => Zod.TString
  | PNumber => Zod.TNumber
  | PBoolean => Zod.TBoolean
  end.

(** The argument [v] given for parameter [p] is not acceptable: it is
    missing though required, or of another type, or below the bound. *)
Inductive violates (p : Param) (v : value) : Prop :=
  | omitted :
      required p = true -> v = Undefined -> violates p v
  | wrong_typed :
      v <> Undefined -> Zod.getParsedType v <> expected_tag (param_type p) ->
      violates p v
  | out_of_range (m q : Q) :
      minimum p = Some m -> v = Num (Finite q) -> (q < m)%Q -> violates p v.

(* ================================================================== *)
(** ** What a call does to the network *)

(** The HTTP method of the tool's endpoint. *)
Definition method_of (call : Invocation) : Method :=
  match call with
  | CallCreateTimeEntry _ => POST
  | CallUpdateTimeEntry _ => PUT
  | CallDeleteTimeEntry _ => DELETE
  | _ => GET
  end.

(** The requests a handler adds to those issued before it ran. *)
Definition issued {host : Host} (call : Invocation) (w : World) : list Request :=
  skipn (List.length (requests (trace w))) (requests (trace (snd (handle call w)))).

(** [new] is nothing, or the one request of a Gateway call made with the
    credential of [w], the method of the tool and, for the tools that
    write an entry, an object as body. *)
Definition one_call {host : Host} (call : Invocation) (w : World) (new : list Request) : Prop :=
  new = []
  \/ exists c key url body,
       CLOCKIFY_API_KEY w = Some (String c key)
       /\ new = [api_request (String c key) url (method_of call) body]
       /\ match call with
          | CallCreateTimeEntry _ | CallUpdateTimeEntry _ =>
              exists fields, body = Some (BodyObject (Obj fields))
          | _ => body = None
          end.

(** The path of the tool's endpoint, as its template literal builds it. *)
Definition endpoint {host : Host} (call : Invocation) : string :=
  match call with
  | CallGetUser => "/user"
  | CallListWorkspaces => "/workspaces"
  | CallListProjects input =>
      "/workspaces/" ++ ListProjects.workspaceId input
        ++ "/projects?archived=false&page=1&page-size=5000&name="
        ++ ListProjects.name_or_empty input
  | CallListTasks input =>
      "/workspaces/" ++ ListTasks.workspaceId input
        ++ "/projects/" ++ ListTasks.projectId input ++ "/tasks"
  | CallListTimeEntries input =>
      "/workspaces/" ++ ListTimeEntries.workspaceId input
        ++ "/user/" ++ ListTimeEntries.userId input
        ++ "/time-entries?start=" ++ ListTimeEntries.start input
        ++ "&end=" ++ ListTimeEntries.end_ input
        ++ "&page=" ++ number_to_string (ListTimeEntries.page input)
        ++ "&page-size=" ++ number_to_string (ListTimeEntries.pageSize input)
  | CallCreateTimeEntry input =>
      "/workspaces/" ++ CreateTimeEntry.workspaceId input ++ "/time-entries"
  | CallUpdateTimeEntry input =>
      "/workspaces/" ++ UpdateTimeEntry.workspaceId input
        ++ "/time-entries/" ++ UpdateTimeEntry.timeEntryId input
  | CallDeleteTimeEntry input =>
      "/workspaces/" ++ DeleteTimeEntry.workspaceId input
        ++ "/time-entries/" ++ DeleteTimeEntry.timeEntryId input
  end.

(** The Gateway call with these arguments, made in [w], returns [v]. *)
Definition gateway_returns {host : Host}
    (w : World) (url : string) (method : Method) (body : option Body) (v : value) : Prop :=
  exists w', makeAPIRequest url method body w = (Ok v, w').

(** The properties kept of each item by the tools that reduce a list. *)
Definition reduced_keys (call : Invocation) : option (list string) :=
  match call with
  | CallListWorkspaces => Some ["id"; "name"]
  | CallListProjects _ => Some ["id"; "name"; "workspaceId"; "billable"]
  | CallListTasks _ => Some ["id"; "name"; "projectId"]
  | _ => None
  end.

(** The object holding the properties [keys] of [v], in that order; a
    property [v] lacks is [undefined]. *)
Definition pick (keys : list string) (v : value) : value :=
  Obj (map (fun k => (k, match get v k with
                         | Ok x => x
                         | Throw _ => Undefined
                         end)) keys).


(* ================================================================== *)
(** ** Sample hosts and worlds *)

Module Sample.

(** A host whose local time zone is UTC and which knows two date
    strings; numbers print as their integer part. *)
Definition parse (s : string) : option Z :=
  if String.eqb s "2024-01-01T09:00:00" then Some 1704099600000
  else if String.eqb s "2024-01-01T17:00:00" then Some 1704128400000
  else None.

Definition host : Host :=
  {| Number_toString := fun q => Z_to_string (Qnum q / Zpos (Qden q));
     Date_parse := parse |}.

(** A world with the given credential whose network answers every
    request with [answer]. *)
Definition world (key : option string) (answer : Completion Response) : World :=
  {| CLOCKIFY_API_KEY := key; network := fun _ => answer; trace := [] |}.

Definition respond (code : Z) (body : string) (parsed : Completion json) : Completion Response :=
  Ok {| status := code; text_outcome := Ok body; json_outcome := parsed |}.

Definition no_json : Completion json :=
  Throw (SyntaxError "Unexpected end of JSON input").

Definition entry : json :=
  JObj [ ("id", JStr "e1");
         ("description", JStr "work");
         ("projectId", JStr "p1");
         ("timeInterval",
          JObj [ ("start", JStr "2024-01-01T09:00:00Z");
                 ("end", JStr "2024-01-01T17:00:00Z") ]) ].

Definition new_entry : CreateTimeEntry.Input :=
  {| CreateTimeEntry.workspaceId := "w1";
     CreateTimeEntry.billable := true;
     CreateTimeEntry.description := "work";
     CreateTimeEntry.start := "2024-01-01T09:00:00";
     CreateTimeEntry.end_ := "2024-01-01T17:00:00";
     CreateTimeEntry.projectId := "p1" |}.

(** An entry whose [start] is no date. *)
Definition undated_entry : CreateTimeEntry.Input :=
  {| CreateTimeEntry.workspaceId := "w1";
     CreateTimeEntry.billable := true;
     CreateTimeEntry.description := "work";
     CreateTimeEntry.start := "tomorrow morning";
     CreateTimeEntry.end_ := "2024-01-01T17:00:00";
     CreateTimeEntry.projectId := "p1" |}.



End Sample.

(** [sub] occurs in [s]. *)
Definition embeds (s sub : string) : Prop :=
  exists before after, s = before ++ sub ++ after.

(* ================================================================== *)
(** * Properties *)

(** ** The Gateway *)

Lemma embeds_intro (before sub after : string) : embeds (before ++ sub ++ after) sub.
Proof. exists before, after. reflexivity. Qed.

Lemma append_assoc (a b c : string) : (a ++ b) ++ c = a ++ b ++ c.
Proof. induction a as [|x a IH]; simpl; [reflexivity|]. now rewrite IH. Qed.

Lemma append_nil_r (a : string) : a ++ "" = a.
Proof. induction a as [|x a IH]; simpl; [reflexivity|]. now rewrite IH. Qed.

Section GatewayFacts.
Context {host : Host}.
Variables (url : string) (method : Method) (body : option Body).

(** What a call does once the credential is there. *)
Lemma makeAPIRequest_with_key (w : World) (c : ascii) (key : string) :
  CLOCKIFY_API_KEY w = Some (String c key) ->
  makeAPIRequest url method body w =
    let req := api_request (String c key) url method body in
    let w1 := record (EvFetch req) w in
    match network w req with
    | Throw e =>
        (Throw (Error ("Error making Clockify API request: " ++ message e)), w1)
    | Ok response =>
        if ok response then
          if status response =? 204 then (Ok (Obj []), w1)
          else match json_outcome response with
               | Ok j => (Ok (of_json j), record EvJson w1)
               | Throw e =>
                   (Throw (Error ("Error making Clockify API request: " ++ message e)),
                    record EvJson w1)
               end
        else match text_outcome response with
             | Ok errorText =>
                 (Throw (Error ("Error making Clockify API request: "
                                ++ "HTTP error! status: " ++ Z_to_string (status response)
                                ++ ", response: " ++ errorText)),
                  record EvText w1)
             | Throw e =>
                 (Throw (Error ("Error making Clockify API request: " ++ message e)),
                  record EvText w1)
             end
    end.
Proof.
  intros Hkey. unfold makeAPIRequest. rewrite Hkey.
  unfold try_catch, bind, fetch, response_text, response_json, throw, ret. cbv zeta.
  destruct (network w _) as [response|e]; [|reflexivity].
  destruct (ok response); cbn [negb].
  - destruct (status response =? 204); [reflexivity|].
    destruct (json_outcome response); reflexivity.
  - destruct (text_outcome response); reflexivity.
Qed.

(** C2. A call made while the credential is absent or empty throws the
    configuration error at once and leaves the world as it was: no
    request is issued. *)
Theorem missing_credential_fails_before_fetch (w : World) :
  CLOCKIFY_API_KEY w = None \/ CLOCKIFY_API_KEY w = Some "" ->
  makeAPIRequest url method body w = (Throw (Error "Missing Clockify API key"), w)
  /\ requests (trace (snd (makeAPIRequest url method body w))) = requests (trace w).
Proof.
  intros Hkey.
  assert (E : makeAPIRequest url method body w
              = (Throw (Error "Missing Clockify API key"), w)).
  { unfold makeAPIRequest. destruct Hkey as [-> | ->]; reflexivity. }
  rewrite E. split; reflexivity.
Qed.
(** C3 (amended). When the response status is not an ok status, below
    200 or above 299, the call reads the body as text and throws an
    error whose message holds the status number and the body text; the
    body is not read as JSON and nothing is returned. *)
Theorem failure_status_embeds_status_and_body
    (w : World) (c : ascii) (key : string) (response : Response) (errorText : string) :
  CLOCKIFY_API_KEY w = Some (String c key) ->
  network w (api_request (String c key) url method body) = Ok response ->
  status response < 200 \/ 299 < status response ->
  text_outcome response = Ok errorText ->
  exists e,
    fst (makeAPIRequest url method body w) = Throw e
    /\ embeds (message e) (Z_to_string (status response))
    /\ embeds (message e) errorText
    /\ trace (snd (makeAPIRequest url method body w))
       = (trace w ++ [EvFetch (api_request (String c key) url method body); EvText])%list.
Proof.
  intros Hkey Hnet Hstatus Htext.
  rewrite (makeAPIRequest_with_key w Hkey). cbv zeta. rewrite Hnet.
  assert (Hok : ok response = false).
  { unfold ok. apply andb_false_iff.
    destruct Hstatus; [left; apply Z.leb_gt | right; apply Z.leb_gt]; assumption. }
  rewrite Hok, Htext. eexists. cbn [fst snd message Error].
  repeat split.
  - exists "Error making Clockify API request: HTTP error! status: ",
      (", response: " ++ errorText).
    reflexivity.
  - exists ("Error making Clockify API request: HTTP error! status: "
            ++ Z_to_string (status response) ++ ", response: "), "".
    rewrite append_nil_r, !append_assoc. reflexivity.
  - cbn [record trace]. rewrite <- app_assoc. reflexivity.
Qed.

End GatewayFacts.

Lemma missing_credential_fails_before_fetch_witness :
  let w := Sample.world (Some "") (Sample.respond 200 "{}" (Ok (JObj []))) in
  (CLOCKIFY_API_KEY w = None \/ CLOCKIFY_API_KEY w = Some "")
  /\ makeAPIRequest (host := Sample.host) "/user" GET None w
     = (Throw (Error "Missing Clockify API key"), w)
  /\ requests (trace (snd (makeAPIRequest (host := Sample.host) "/user" GET None w)))
     = requests (trace w).
Proof.
  intro w.
  assert (H : CLOCKIFY_API_KEY w = None \/ CLOCKIFY_API_KEY w = Some "")
    by (right; reflexivity).
  split; [exact H|].
  exact (missing_credential_fails_before_fetch (host := Sample.host) "/user" GET None w H).
Defined.

Lemma failure_status_embeds_status_and_body_witness :
  let w := Sample.world (Some "k") (Sample.respond 404 "Not found" Sample.no_json) in
  exists e,
    fst (makeAPIRequest (host := Sample.host) "/user" GET None w) = Throw e
    /\ embeds (message e) "404"
    /\ embeds (message e) "Not found"
    /\ trace (snd (makeAPIRequest (host := Sample.host) "/user" GET None w))
       = [EvFetch (api_request (host := Sample.host) "k" "/user" GET None); EvText].
Proof.
  intro w.
  refine (failure_status_embeds_status_and_body (host := Sample.host)
            "/user" GET None w (c := "k"%char) (key := "")
            (response := {| status := 404; text_outcome := Ok "Not found";
                            json_outcome := Sample.no_json |})
            (errorText := "Not found") _ _ _ _).
  - reflexivity.
  - reflexivity.
  - right. cbn. lia.
  - reflexivity.
Defined.

(** C3, as stated, fails at status 299: it lies outside [200,299), yet it
    is an ok status and the call returns the parsed body. *)
Lemma status_299_returns_parsed_body :
  let w := Sample.world (Some "k") (Sample.respond 299 "null" (Ok JNull)) in
  ~ (200 <= 299 < 299)
  /\ network w (api_request (host := Sample.host) "k" "/user" GET None)
     = Sample.respond 299 "null" (Ok JNull)
  /\ fst (makeAPIRequest (host := Sample.host) "/user" GET None w) = Ok Null.
Proof.
  intro w. split; [lia|]. split; reflexivity.
Qed.


(* ================================================================== *)
(** ** The error wrapper and the shape of results *)

Section WrapperFacts.
Context {host : Host}.

Lemma responseWrapper_spec (fn : M CallToolResult) (w : World) :
  responseWrapper fn w =
    match fn w with
    | (Ok r, w') => (Ok r, w')
    | (Throw e, w') => (Ok (text_result ("Error: " ++ message e)), w')
    end.
Proof.
  unfold responseWrapper, try_catch. destruct (fn w) as [[r|e] w']; reflexivity.
Qed.

Lemma handle_wraps_body (call : Invocation) :
  handle call = responseWrapper (handler_body call).
Proof. destruct call; reflexivity. Qed.

(** Every registered callback is the handler of some validated call. *)
Lemma callbacks_are_handles (t : RegisteredTool) (input : InputT t) :
  In t tools -> exists call, callback t input = handle call.
Proof.
  intros H. cbn [tools In] in H.
  repeat (destruct H as [<- | H];
          [first [ exists CallGetUser; reflexivity
                 | exists CallListWorkspaces; reflexivity
                 | exists (CallListProjects input); reflexivity
                 | exists (CallListTasks input); reflexivity
                 | exists (CallListTimeEntries input); reflexivity
                 | exists (CallCreateTimeEntry input); reflexivity
                 | exists (CallUpdateTimeEntry input); reflexivity
                 | exists (CallDeleteTimeEntry input); reflexivity ]
          |]).
  contradiction.
Qed.

(** C1. Whatever tool is called, with whatever input and world: when the
    function given to the wrapper returns, the handler returns that very
    result; when it throws, the handler returns normally, with the one
    text [Error: ] followed by the message of what was thrown. Either way
    the handler returns and nothing is thrown to the caller. *)
Theorem handler_failure_becomes_error_text (call : Invocation) (w : World) :
  handle call w =
    match handler_body call w with
    | (Ok r, w') => (Ok r, w')
    | (Throw e, w') =>
        (Ok {| content := [ {| type := "text";
                               text := Some ("Error: " ++ message e) |} ] |}, w')
    end.
Proof.
  rewrite handle_wraps_body. apply responseWrapper_spec.
Qed.

(** *** Every result is one text item *)

Lemma sendResponse_text (v : value) :
  exists s,
    sendResponse "text" v = text_result s
    /\ match v with
       | Str s' => s = s'
       | Undefined => s = ""
       | _ => JSON_stringify v = Some s
       end.
Proof.
  destruct v; eexists; (split; [reflexivity|]); reflexivity.
Qed.

Lemma one_text_sendResponse (v : value) : one_text (Ok (sendResponse "text" v)).
Proof. destruct (sendResponse_text v) as [s [E _]]. exists s. exact E. Qed.

Lemma of_json_defined (j : json) : of_json j <> Undefined.
Proof. destruct j; discriminate. Qed.

Ltac step_completions :=
  repeat match goal with
         | |- one_text (match ?c with Ok _ => _ | Throw _ => _ end) => destruct c
         | |- one_text (Ok (sendResponse _ _)) => apply one_text_sendResponse
         | |- one_text (Throw _) => exact I
         end.

Lemma handler_body_one_text (call : Invocation) (w : World) :
  one_text (fst (handler_body call w)).
Proof.
  destruct call; cbn [handler_body];
    unfold GetUser.body, ListWorkspaces.body, ListProjects.body, ListTasks.body,
      ListTimeEntries.body, CreateTimeEntry.body, UpdateTimeEntry.body,
      DeleteTimeEntry.body, bind, lift, ret;
    repeat match goal with
           | |- context [makeAPIRequest ?u ?m ?b ?w'] =>
               destruct (makeAPIRequest u m b w') as [[response|e] w1]
           | |- context [CreateTimeEntry.payload ?i ?a ?b] =>
               destruct (CreateTimeEntry.payload i a b)
           | |- context [UpdateTimeEntry.payload ?i ?a ?b] =>
               destruct (UpdateTimeEntry.payload i a b)
           end;
    cbn [fst]; step_completions.
Qed.

(** C10. Every handler, for every input and world, returns a result with
    exactly one item, of type text, whose text is a string. [sendResponse]
    passes a string through as it is and gives every other payload as its
    JSON text. *)
Theorem every_result_is_one_text_item :
  (forall (call : Invocation) (w : World),
     exists s : string,
       fst (handle call w)
       = Ok {| content := [ {| type := "text"; text := Some s |} ] |})
  /\ (forall s : string,
        sendResponse "text" (Str s)
        = {| content := [ {| type := "text"; text := Some s |} ] |})
  /\ (forall v : value,
        exists s : string,
          sendResponse "text" v
          = {| content := [ {| type := "text"; text := Some s |} ] |}
          /\ match v with
             | Str s' => s = s'
             | Undefined => s = ""
             | _ => JSON_stringify v = Some s
             end).
Proof.
  split; [|split].
  - intros call w. rewrite handle_wraps_body, responseWrapper_spec.
    pose proof (handler_body_one_text call w) as H.
    destruct (handler_body call w) as [[r|e] w']; cbn [fst] in *.
    + destruct H as [s ->]. exists s. reflexivity.
    + eexists. reflexivity.
  - reflexivity.
  - apply sendResponse_text.
Qed.
End WrapperFacts.

(* ================================================================== *)
(** ** Deleting a time entry *)

Section DeleteFacts.
Context {host : Host}.

(** C9 (amended). When the service answers a delete with an ok status and
    the Gateway call succeeds (the status is 204, or the body parses as
    JSON), the tool returns the fixed success message, the same text
    whatever the response held. *)
Theorem delete_success_returns_fixed_message
    (input : DeleteTimeEntry.Input) (w : World) (c : ascii) (key : string)
    (response : Response) :
  CLOCKIFY_API_KEY w = Some (String c key) ->
  network w (api_request (String c key)
               ("/workspaces/" ++ DeleteTimeEntry.workspaceId input
                  ++ "/time-entries/" ++ DeleteTimeEntry.timeEntryId input)
               DELETE None) = Ok response ->
  200 <= status response <= 299 ->
  status response = 204 \/ (exists j, json_outcome response = Ok j) ->
  fst (DeleteTimeEntry.handler input w)
  = Ok {| content :=
            [ {| type := "text";
                 text := Some ("{" ++ dq ++ "message" ++ dq ++ ":" ++ dq
                               ++ "Time entry deleted successfully." ++ dq ++ "}") |} ] |}.
Proof.
  intros Hkey Hnet Hstatus Hbody.
  unfold DeleteTimeEntry.handler. rewrite responseWrapper_spec.
  unfold DeleteTimeEntry.body, bind.
  rewrite (makeAPIRequest_with_key _ _ _ w Hkey). cbv zeta. rewrite Hnet.
  assert (Hok : ok response = true).
  { unfold ok. apply andb_true_iff. split; apply Z.leb_le; lia. }
  rewrite Hok.
  destruct (status response =? 204) eqn:E204; [reflexivity|].
  destruct Hbody as [H204 | [j Hj]].
  - apply Z.eqb_neq in E204. contradiction.
  - rewrite Hj. reflexivity.
Qed.
End DeleteFacts.

Lemma delete_success_returns_fixed_message_witness :
  let input := {| DeleteTimeEntry.timeEntryId := "e1"; DeleteTimeEntry.workspaceId := "w1" |} in
  let w := Sample.world (Some "k") (Sample.respond 200 "[1,2]" (Ok (JArr [JNull]))) in
  fst (DeleteTimeEntry.handler (host := Sample.host) input w)
  = Ok {| content :=
            [ {| type := "text";
                 text := Some ("{" ++ dq ++ "message" ++ dq ++ ":" ++ dq
                               ++ "Time entry deleted successfully." ++ dq ++ "}") |} ] |}.
Proof.
  intros input w.
  refine (delete_success_returns_fixed_message (host := Sample.host) input w
            (c := "k"%char) (key := "")
            (response := {| status := 200; text_outcome := Ok "[1,2]";
                            json_outcome := Ok (JArr [JNull]) |}) _ _ _ _).
  - reflexivity.
  - reflexivity.
  - cbn. lia.
  - right. exists (JArr [JNull]). reflexivity.
Defined.

(** C9, as stated, fails for an ok status whose body is not JSON: the
    Gateway throws on parsing it and the tool returns that error instead
    of the success message. *)
Lemma delete_with_unparsable_body_reports_error :
  let input := {| DeleteTimeEntry.timeEntryId := "e1"; DeleteTimeEntry.workspaceId := "w1" |} in
  let w := Sample.world (Some "k") (Sample.respond 200 "" Sample.no_json) in
  ok {| status := 200; text_outcome := Ok ""; json_outcome := Sample.no_json |} = true
  /\ fst (DeleteTimeEntry.handler (host := Sample.host) input w)
     = Ok (text_result
             "Error: Error making Clockify API request: Unexpected end of JSON input")
  /\ fst (DeleteTimeEntry.handler (host := Sample.host) input w)
     <> Ok (text_result ("{" ++ dq ++ "message" ++ dq ++ ":" ++ dq
                         ++ "Time entry deleted successfully." ++ dq ++ "}")).
Proof.
  intros input w. split; [reflexivity|]. split; [reflexivity|].
  intro H. vm_compute in H. discriminate H.
Qed.

(* ================================================================== *)
(** ** Dates *)

Module DateFacts.
Import DateTime.

Lemma small_digit (n : Z) :
  0 <= n < 10 -> exists m : nat, n = Z.of_nat m /\ (m < 10)%nat.
Proof. intros H. exists (Z.to_nat n). lia. Qed.

Ltac each_digit H :=
  let m := fresh "m" in
  let Hm := fresh "Hm" in
  destruct (small_digit H) as [m [-> Hm]];
  do 10 (destruct m as [|m]; [try split; reflexivity|]); lia.

Lemma digit_val_digit_char (n : Z) :
  0 <= n < 10 -> digit_val (digit_char n) = Some n.
Proof. intros H. each_digit H. Qed.

Lemma digit_char_not_sign (n : Z) :
  0 <= n < 10 ->
  Ascii.eqb (digit_char n) "+" = false /\ Ascii.eqb (digit_char n) "-" = false.
Proof. intros H. each_digit H. Qed.

Lemma read_digits_digits (w : nat) :
  forall (n acc : Z) (rest : string),
    0 <= n ->
    read_digits w acc (digits w n ++ rest)
    = Some (acc * 10 ^ Z.of_nat w + n mod 10 ^ Z.of_nat w, rest).
Proof.
  induction w as [|w IH]; intros n acc rest Hn.
  - cbn [read_digits digits append]. f_equal. f_equal.
    change (10 ^ Z.of_nat 0) with 1. rewrite Z.mod_1_r. lia.
  - cbn [digits append read_digits].
    rewrite digit_val_digit_char by (apply Z.mod_pos_bound; lia).
    rewrite IH by assumption. f_equal. f_equal.
    rewrite Nat2Z.inj_succ, Z.pow_succ_r by lia.
    set (p := 10 ^ Z.of_nat w).
    assert (Hp : 0 < p) by (apply Z.pow_pos_nonneg; lia).
    rewrite (Z.mul_comm 10 p), Z.rem_mul_r by lia. lia.
Qed.

Lemma read_fixed (w : nat) (n : Z) (rest : string) :
  0 <= n < 10 ^ Z.of_nat w ->
  read_digits w 0 (digits w n ++ rest) = Some (n, rest).
Proof.
  intros H. rewrite read_digits_digits by lia.
  rewrite Z.mod_small by lia. reflexivity.
Qed.

Lemma YearFromDay_spec (d : Z) :
  DayFromYear (YearFromDay d) <= d < DayFromYear (YearFromDay d + 1).
Proof.
  unfold YearFromDay. cbv zeta.
  set (y := 1970 + d * 400 / 146097).
  destruct (Z.ltb_spec d (DayFromYear y));
    [|destruct (Z.leb_spec (DayFromYear (y + 1)) d)].
  - replace (y - 1 + 1) with y by lia. split; [|assumption].
    unfold DayFromYear in *. subst y. Z.div_mod_to_equations. lia.
  - split; [assumption|].
    unfold DayFromYear in *. subst y. Z.div_mod_to_equations. lia.
  - lia.
Qed.

Lemma DayFromYear_succ (y : Z) :
  DayFromYear (y + 1) = DayFromYear y + DaysInYear y.
Proof.
  unfold DayFromYear, DaysInYear.
  destruct (Z.eqb_spec (y mod 4) 0); destruct (Z.eqb_spec (y mod 100) 0);
    destruct (Z.eqb_spec (y mod 400) 0); cbn [negb];
    Z.div_mod_to_equations; lia.
Qed.

Lemma DaysInYear_leap (y : Z) :
  DaysInYear y = 365 + LeapDays y /\ 0 <= LeapDays y <= 1.
Proof.
  unfold LeapDays, DaysInYear.
  destruct (negb (y mod 4 =? 0)), (negb (y mod 100 =? 0)), (negb (y mod 400 =? 0));
    unfold MonthStart;
    repeat match goal with
           | |- context [if ?a <=? ?b then _ else _] =>
               destruct (Z.leb_spec a b); try lia
           | |- context [if ?a =? ?b then _ else _] =>
               destruct (Z.eqb_spec a b); try lia
           end.
Qed.

Lemma DayWithinYear_bounds (t : Z) :
  0 <= DayWithinYear t < 365 + InLeapYear t.
Proof.
  unfold DayWithinYear, InLeapYear, YearFromTime.
  pose proof (YearFromDay_spec (Day t)) as H.
  rewrite DayFromYear_succ in H.
  destruct (DaysInYear_leap (YearFromDay (Day t))) as [E _]. lia.
Qed.

Lemma month_and_date (t : Z) :
  0 <= MonthFromTime t <= 11
  /\ 1 <= DateFromTime t
       <= MonthStart (InLeapYear t) (MonthFromTime t + 1)
          - MonthStart (InLeapYear t) (MonthFromTime t)
  /\ MonthStart (InLeapYear t) (MonthFromTime t) + DateFromTime t - 1 = DayWithinYear t
  /\ DateFromTime t <= 31.
Proof.
  pose proof (DayWithinYear_bounds t) as Hd.
  assert (Hl : 0 <= InLeapYear t <= 1)
    by (unfold InLeapYear; apply DaysInYear_leap).
  unfold DateFromTime, MonthFromTime. cbv zeta.
  set (d := DayWithinYear t) in *. set (leap := InLeapYear t) in *.
  repeat match goal with
         | |- context [if ?a <? ?b then _ else _] => destruct (Z.ltb_spec a b)
         end;
    unfold MonthStart;
    repeat match goal with
           | |- context [if ?a <=? ?b then _ else _] =>
               destruct (Z.leb_spec a b); try lia
           | |- context [if ?a =? ?b then _ else _] =>
               destruct (Z.eqb_spec a b); try lia
           end.
Qed.

Lemma time_within_day (t : Z) :
  0 <= HourFromTime t < 24 /\ 0 <= MinFromTime t < 60 /\ 0 <= SecFromTime t < 60
  /\ 0 <= msFromTime t < 1000
  /\ MakeTime (HourFromTime t) (MinFromTime t) (SecFromTime t) (msFromTime t)
     = TimeWithinDay t.
Proof.
  unfold HourFromTime, MinFromTime, SecFromTime, msFromTime, MakeTime, TimeWithinDay,
    msPerHour, msPerMinute, msPerSecond, msPerDay.
  Z.div_mod_to_equations. lia.
Qed.

Lemma year_in_six_digits (t : Z) :
  Z.abs t <= maxTime -> -999999 <= YearFromTime t <= 999999.
Proof.
  intros Ht. unfold YearFromTime.
  pose proof (YearFromDay_spec (Day t)) as H.
  assert (Hd : -100000000 <= Day t <= 100000000).
  { unfold Day, msPerDay, maxTime in *. Z.div_mod_to_equations. lia. }
  unfold DayFromYear in H. Z.div_mod_to_equations. lia.
Qed.

Lemma read_year_year_text (y : Z) (rest : string) :
  -999999 <= y <= 999999 ->
  read_year (year_text y ++ rest) = Some (y, rest).
Proof.
  intros Hy. unfold year_text.
  destruct (Z.leb_spec 0 y) as [H0|H0]; [destruct (Z.leb_spec y 9999) as [H9|H9]|];
    cbn [andb].
  - change (digits 4 y) with (String (digit_char (y / 10 ^ Z.of_nat 3 mod 10)) (digits 3 y)).
    cbn [append read_year].
    assert (Hdigit : 0 <= y / 10 ^ Z.of_nat 3 mod 10 < 10)
      by (apply Z.mod_pos_bound; lia).
    destruct (digit_char_not_sign Hdigit) as [E1 E2].
    rewrite E1, E2.
    change (String (digit_char (y / 10 ^ Z.of_nat 3 mod 10)) (digits 3 y ++ rest))
      with (digits 4 y ++ rest).
    apply read_fixed. cbn. lia.
  - destruct (Z.ltb_spec y 0); [lia|].
    cbn [append read_year Ascii.eqb Bool.eqb].
    rewrite Z.abs_eq by lia. apply read_fixed. cbn. lia.
  - destruct (Z.ltb_spec y 0); [|lia].
    cbn [append read_year Ascii.eqb Bool.eqb].
    rewrite read_fixed by (cbn; lia).
    destruct (Z.eqb_spec (Z.abs y) 0); [lia|].
    f_equal. f_equal. lia.
Qed.

(** A time value within range survives printing and reading back. *)
Lemma UTC_instant_iso_text (t : Z) :
  Z.abs t <= maxTime -> UTC_instant (iso_text t) = Some t.
Proof.
  intros Ht.
  destruct (month_and_date t) as [Hm [Hdt [Hday Hdt31]]].
  destruct (time_within_day t) as [Hh [Hmi [Hs [Hms Htime]]]].
  unfold UTC_instant, iso_text.
  rewrite read_year_year_text by (apply year_in_six_digits; assumption).
  cbn [append expect Ascii.eqb Bool.eqb].
  rewrite read_fixed by (cbn; lia).
  cbn [append expect Ascii.eqb Bool.eqb].
  rewrite read_fixed by (cbn; lia).
  cbn [append expect Ascii.eqb Bool.eqb].
  rewrite read_fixed by (cbn; lia).
  cbn [append expect Ascii.eqb Bool.eqb].
  rewrite read_fixed by (cbn; lia).
  cbn [append expect Ascii.eqb Bool.eqb].
  rewrite read_fixed by (cbn; lia).
  cbn [append expect Ascii.eqb Bool.eqb].
  rewrite <- (append_nil_r (digits 3 (msFromTime t) ++ "Z")), append_assoc.
  rewrite read_fixed by (cbn; lia).
  cbn [append expect Ascii.eqb Bool.eqb].
  replace (MonthFromTime t + 1 - 1) with (MonthFromTime t) by lia.
  unfold DaysInMonth. fold (InLeapYear t).
  repeat match goal with
         | |- context [?a <=? ?b] => destruct (Z.leb_spec a b); [|lia]
         | |- context [?a <? ?b] => destruct (Z.ltb_spec a b); [|lia]
         end.
  cbn [andb]. f_equal.
  unfold MakeDate, MakeDay. fold (InLeapYear t). rewrite Htime.
  unfold DayWithinYear in Hday. unfold TimeWithinDay, Day in *.
  unfold msPerDay in *. Z.div_mod_to_equations. lia.
Qed.

Lemma new_Date_in_range {host : Host} (s : string) (t : Z) :
  new_Date s = Some t -> Z.abs t <= maxTime.
Proof.
  unfold new_Date, TimeClip. destruct (Date_parse s) as [t'|]; [|discriminate].
  destruct (Z.leb_spec (Z.abs t') maxTime); [|discriminate].
  intros E. injection E as <-. assumption.
Qed.

End DateFacts.

(* ================================================================== *)
(** ** Creating and updating a time entry *)

Lemma requests_app (a b : list Event) :
  requests (a ++ b) = (requests a ++ requests b)%list.
Proof.
  induction a as [|ev a IH]; [reflexivity|].
  destruct ev; cbn [requests app]; rewrite IH; reflexivity.
Qed.

Section TimeEntryFacts.
Context {host : Host}.
Import DateTime.

(** With the credential there, a call issues one request, whatever comes
    back. *)
Lemma makeAPIRequest_requests
    (url : string) (method : Method) (body : option Body)
    (w : World) (c : ascii) (key : string) :
  CLOCKIFY_API_KEY w = Some (String c key) ->
  requests (trace (snd (makeAPIRequest url method body w)))
  = (requests (trace w) ++ [api_request (String c key) url method body])%list.
Proof.
  intros Hkey. rewrite (makeAPIRequest_with_key _ _ _ w Hkey). cbv zeta.
  destruct (network w _) as [response|e].
  - destruct (ok response).
    + destruct (status response =? 204).
      * cbn [snd record trace]. rewrite requests_app. reflexivity.
      * destruct (json_outcome response); cbn [snd record trace];
          rewrite !requests_app; cbn [requests]; rewrite app_nil_r; reflexivity.
    + destruct (text_outcome response); cbn [snd record trace];
        rewrite !requests_app; cbn [requests]; rewrite app_nil_r; reflexivity.
  - cbn [snd record trace]. rewrite requests_app. reflexivity.
Qed.

Lemma snd_responseWrapper (fn : M CallToolResult) (w : World) :
  snd (responseWrapper fn w) = snd (fn w).
Proof.
  rewrite responseWrapper_spec. destruct (fn w) as [[r|e] w']; reflexivity.
Qed.

Lemma snd_bind_lift (A B : Type) (m : M A) (k : A -> Completion B) (w : World) :
  snd (bind m (fun a => lift (k a)) w) = snd (m w).
Proof.
  unfold bind, lift. destruct (m w) as [[a|e] w']; reflexivity.
Qed.

(** C5 (amended). When [start] or [end] does not parse to a valid date,
    the handler of create and of update returns the text
    [Error: Invalid time value] and leaves the world untouched: the range
    error is thrown while the request body is being built, before the
    Gateway is called, so no request is issued. *)
Theorem invalid_date_stops_before_request :
  (forall (input : CreateTimeEntry.Input) (w : World),
     new_Date (CreateTimeEntry.start input) = None
     \/ new_Date (CreateTimeEntry.end_ input) = None ->
     CreateTimeEntry.handler input w
     = (Ok {| content := [ {| type := "text";
                              text := Some "Error: Invalid time value" |} ] |}, w))
  /\ (forall (input : UpdateTimeEntry.Input) (w : World),
        new_Date (UpdateTimeEntry.start input) = None
        \/ new_Date (UpdateTimeEntry.end_ input) = None ->
        UpdateTimeEntry.handler input w
        = (Ok {| content := [ {| type := "text";
                                 text := Some "Error: Invalid time value" |} ] |}, w)).
Proof.
  split; intros input w Hbad.
  - unfold CreateTimeEntry.handler. cbv zeta. rewrite responseWrapper_spec.
    unfold CreateTimeEntry.body, bind, lift, CreateTimeEntry.payload.
    destruct Hbad as [-> | ->]; [reflexivity|].
    destruct (new_Date (CreateTimeEntry.start input)); reflexivity.
  - unfold UpdateTimeEntry.handler. cbv zeta. rewrite responseWrapper_spec.
    unfold UpdateTimeEntry.body, bind, lift, UpdateTimeEntry.payload.
    destruct Hbad as [-> | ->]; [reflexivity|].
    destruct (new_Date (UpdateTimeEntry.start input)); reflexivity.
Qed.

(** C6. When [start] and [end] parse to the instants [t1] and [t2] and the
    credential is there, create and update issue one request; its body is
    the JSON text of the object whose [start] and [end] are the UTC instant
    strings of [t1] and [t2], and each string reads back as the instant it
    was printed from. *)
Theorem request_body_carries_utc_instants :
  (forall (input : CreateTimeEntry.Input) (w : World) (c : ascii) (key : string)
          (t1 t2 : Z),
     CLOCKIFY_API_KEY w = Some (String c key) ->
     new_Date (CreateTimeEntry.start input) = Some t1 ->
     new_Date (CreateTimeEntry.end_ input) = Some t2 ->
     let payload :=
       Obj [ ("billable", Bool (CreateTimeEntry.billable input));
             ("description", Str (CreateTimeEntry.description input));
             ("start", Str (iso_text t1));
             ("end", Str (iso_text t2));
             ("projectId", Str (CreateTimeEntry.projectId input)) ] in
     let req :=
       api_request (String c key)
         ("/workspaces/" ++ CreateTimeEntry.workspaceId input ++ "/time-entries")
         POST (Some (BodyObject payload)) in
     requests (trace (snd (CreateTimeEntry.handler input w)))
     = (requests (trace w) ++ [req])%list
     /\ req_body req = JSON_stringify payload
     /\ UTC_instant (iso_text t1) = Some t1
     /\ UTC_instant (iso_text t2) = Some t2)
  /\ (forall (input : UpdateTimeEntry.Input) (w : World) (c : ascii) (key : string)
             (t1 t2 : Z),
        CLOCKIFY_API_KEY w = Some (String c key) ->
        new_Date (UpdateTimeEntry.start input) = Some t1 ->
        new_Date (UpdateTimeEntry.end_ input) = Some t2 ->
        let payload :=
          Obj [ ("billable", Bool (UpdateTimeEntry.billable input));
                ("description", Str (UpdateTimeEntry.description input));
                ("start", Str (iso_text t1));
                ("end", Str (iso_text t2));
                ("projectId", Str (UpdateTimeEntry.projectId input)) ] in
        let req :=
          api_request (String c key)
            ("/workspaces/" ++ UpdateTimeEntry.workspaceId input
               ++ "/time-entries/" ++ UpdateTimeEntry.timeEntryId input)
            PUT (Some (BodyObject payload)) in
        requests (trace (snd (UpdateTimeEntry.handler input w)))
        = (requests (trace w) ++ [req])%list
        /\ req_body req = JSON_stringify payload
        /\ UTC_instant (iso_text t1) = Some t1
        /\ UTC_instant (iso_text t2) = Some t2).
Proof.
  split; intros input w c key t1 t2 Hkey H1 H2 payload req;
    pose proof (DateFacts.UTC_instant_iso_text t1 (DateFacts.new_Date_in_range _ H1)) as R1;
    pose proof (DateFacts.UTC_instant_iso_text t2 (DateFacts.new_Date_in_range _ H2)) as R2.
  - unfold CreateTimeEntry.handler. cbv zeta. rewrite snd_responseWrapper, H1, H2.
    unfold CreateTimeEntry.body, CreateTimeEntry.payload, toISOString.
    unfold bind at 1. unfold lift at 1. rewrite snd_bind_lift.
    rewrite (makeAPIRequest_requests _ _ _ w Hkey).
    repeat split; assumption.
  - unfold UpdateTimeEntry.handler. cbv zeta. rewrite snd_responseWrapper, H1, H2.
    unfold UpdateTimeEntry.body, UpdateTimeEntry.payload, toISOString.
    unfold bind at 1. unfold lift at 1. rewrite snd_bind_lift.
    rewrite (makeAPIRequest_requests _ _ _ w Hkey).
    repeat split; assumption.
Qed.
End TimeEntryFacts.

Section SavedEntryFacts.
Context {host : Host}.
Import DateTime.




End SavedEntryFacts.

Lemma invalid_date_stops_before_request_witness :
  let w := Sample.world (Some "k") (Sample.respond 400 "Bad Request" Sample.no_json) in
  (DateTime.new_Date (host := Sample.host) (CreateTimeEntry.start Sample.undated_entry) = None
   \/ DateTime.new_Date (host := Sample.host) (CreateTimeEntry.end_ Sample.undated_entry) = None)
  /\ CreateTimeEntry.handler (host := Sample.host) Sample.undated_entry w
     = (Ok {| content := [ {| type := "text";
                              text := Some "Error: Invalid time value" |} ] |}, w).
Proof.
  intro w.
  assert (H : DateTime.new_Date (host := Sample.host)
                (CreateTimeEntry.start Sample.undated_entry) = None
              \/ DateTime.new_Date (host := Sample.host)
                   (CreateTimeEntry.end_ Sample.undated_entry) = None)
    by (left; reflexivity).
  split; [exact H|].
  exact (proj1 (invalid_date_stops_before_request (host := Sample.host))
           Sample.undated_entry w H).
Defined.

(** C5, as stated, fails: for a [start] that is no date, with the
    credential there and a service ready to answer, the create handler
    issues no request at all, so nothing reaches the service to be
    rejected; the caller gets the local range error. *)
Lemma invalid_date_issues_no_request :
  let w := Sample.world (Some "k") (Sample.respond 400 "Bad Request" Sample.no_json) in
  DateTime.new_Date (host := Sample.host) (CreateTimeEntry.start Sample.undated_entry) = None
  /\ requests (trace (snd (CreateTimeEntry.handler (host := Sample.host)
                            Sample.undated_entry w))) = []
  /\ fst (CreateTimeEntry.handler (host := Sample.host) Sample.undated_entry w)
     = Ok (text_result "Error: Invalid time value").
Proof.
  intro w. repeat split.
Qed.

Lemma request_body_carries_utc_instants_witness :
  let w := Sample.world (Some "k") (Sample.respond 201 "{}" (Ok Sample.entry)) in
  let payload :=
    Obj [ ("billable", Bool true);
          ("description", Str "work");
          ("start", Str "2024-01-01T09:00:00.000Z");
          ("end", Str "2024-01-01T17:00:00.000Z");
          ("projectId", Str "p1") ] in
  let req :=
    api_request (host := Sample.host) "k" "/workspaces/w1/time-entries"
      POST (Some (BodyObject payload)) in
  requests (trace (snd (CreateTimeEntry.handler (host := Sample.host) Sample.new_entry w)))
  = [req]
  /\ req_body req = JSON_stringify (host := Sample.host) payload
  /\ DateTime.UTC_instant "2024-01-01T09:00:00.000Z" = Some 1704099600000
  /\ DateTime.UTC_instant "2024-01-01T17:00:00.000Z" = Some 1704128400000.
Proof.
  intros w payload req.
  exact (proj1 (request_body_carries_utc_instants (host := Sample.host))
           Sample.new_entry w "k"%char "" 1704099600000 1704128400000
           eq_refl eq_refl eq_refl).
Defined.


(* ================================================================== *)
(** ** Schema validation *)

Module ZodFacts.
Import Zod.

Lemma issues_of_ap (A B : Type) (f : Validation (A -> B)) (x : Validation A) :
  issues_of (f <*> x) = (issues_of f ++ issues_of x)%list.
Proof.
  destruct f, x; cbn [ap issues_of app]; try reflexivity.
  symmetry. apply app_nil_r.
Qed.

Lemma invalid_of_issue (A : Type) (x : Validation A) (issue : ZodIssue) :
  In issue (issues_of x) -> x = Invalid (issues_of x).
Proof. destruct x; [intros []|reflexivity]. Qed.

(** A report found in the earlier or in the later part of the shape. *)
Lemma report_earlier (P : ZodIssue -> Prop) (l1 l2 : list ZodIssue) :
  (exists i, In i l1 /\ P i) -> exists i, In i (l1 ++ l2)%list /\ P i.
Proof. intros [i [H HP]]. exists i. split; [apply in_or_app; left|]; assumption. Qed.

Lemma report_later (P : ZodIssue -> Prop) (l1 l2 : list ZodIssue) :
  (exists i, In i l2 /\ P i) -> exists i, In i (l1 ++ l2)%list /\ P i.
Proof. intros [i [H HP]]. exists i. split; [apply in_or_app; right|]; assumption. Qed.

Lemma not_string_reported (k : string) (v : value) :
  getParsedType v <> TString ->
  exists i, In i (issues_of (z_string [k] v)) /\ path i = [k].
Proof.
  intros H. destruct v; try (eexists; split; [left; reflexivity|reflexivity]).
  exfalso. apply H. reflexivity.
Qed.

Lemma string_field (fields : list (string * value)) (k : string) (p : Param) :
  param_type p = PString -> minimum p = None ->
  violates p (property fields k) ->
  exists i, In i (issues_of (field fields k z_string)) /\ path i = [k].
Proof.
  intros Ht Hm Hv. unfold field. apply not_string_reported.
  destruct Hv as [_ -> | _ Hty | m q Hmin _ _].
  - discriminate.
  - rewrite Ht in Hty. exact Hty.
  - congruence.
Qed.

Lemma optional_string_field (fields : list (string * value)) (k : string) (p : Param) :
  param_type p = PString -> required p = false -> minimum p = None ->
  violates p (property fields k) ->
  exists i, In i (issues_of (field fields k (z_optional z_string))) /\ path i = [k].
Proof.
  intros Ht Hr Hm Hv. unfold field.
  destruct Hv as [Hreq _ | Hdef Hty | m q Hmin _ _]; [congruence| |congruence].
  rewrite Ht in Hty.
  destruct (not_string_reported k _ Hty) as [i [Hin Hpath]].
  exists i. split; [|exact Hpath].
  unfold z_optional.
  destruct (property fields k); try contradiction;
    destruct (z_string [k] _); solve [exact Hin | destruct Hin].
Qed.

Lemma default_boolean_field
    (fields : list (string * value)) (k : string) (p : Param) (d : bool) :
  param_type p = PBoolean -> required p = false -> minimum p = None ->
  violates p (property fields k) ->
  exists i, In i (issues_of (field fields k (z_default d z_boolean))) /\ path i = [k].
Proof.
  intros Ht Hr Hm Hv. unfold field, z_default, z_boolean.
  destruct Hv as [Hreq _ | Hdef Hty | m q Hmin _ _]; [congruence| |congruence].
  rewrite Ht in Hty.
  destruct (property fields k); try contradiction;
    (eexists; split; [left; reflexivity|reflexivity]).
Qed.

Lemma default_min_number_field
    (fields : list (string * value)) (k : string) (p : Param) (d : number) (m : Q) :
  param_type p = PNumber -> required p = false -> minimum p = Some m ->
  violates p (property fields k) ->
  exists i,
    In i (issues_of (field fields k (z_default d (z_min m z_number)))) /\ path i = [k].
Proof.
  intros Ht Hr Hm Hv. unfold field, z_default, z_min, z_number.
  destruct Hv as [Hreq _ | Hdef Hty | m' q Hmin Hval Hlt]; [congruence| |].
  - rewrite Ht in Hty.
    destruct (property fields k) as [| |b|n|s|items|fs]; try contradiction;
      try (eexists; split; [left; reflexivity|reflexivity]).
    destruct n; try (eexists; split; [left; reflexivity|reflexivity]);
      exfalso; apply Hty; reflexivity.
  - rewrite Hval. rewrite Hm in Hmin. injection Hmin as <-.
    cbn [at_least].
    destruct (Qle_bool m q) eqn:E.
    + apply Qle_bool_iff in E. exfalso. exact (Qlt_not_le _ _ Hlt E).
    + eexists. split; [left; reflexivity|reflexivity].
Qed.

End ZodFacts.

Section DispatchFacts.
Context {host : Host}.
Import Zod.

Lemma callTool_rejects (name : string) (args : value) (w : World)
    (t : RegisteredTool) (P : ZodIssue -> Prop) :
  find (fun t => String.eqb (tool_name t) name) tools = Some t ->
  (exists i, In i (issues_of (inputSchema t args)) /\ P i) ->
  exists issues issue,
    callTool name args w = (InvalidArguments issues, w)
    /\ In issue issues /\ P issue.
Proof.
  intros Hfind [i [Hin HP]]. unfold callTool. rewrite Hfind.
  rewrite (ZodFacts.invalid_of_issue _ _ Hin).
  exists (issues_of (inputSchema t args)), i. repeat split; assumption.
Qed.

Ltac report_field Hv :=
  first
    [ eapply ZodFacts.string_field; [| |exact Hv]; reflexivity
    | eapply ZodFacts.optional_string_field; [| | |exact Hv]; reflexivity
    | eapply ZodFacts.default_boolean_field; [| | |exact Hv]; reflexivity
    | eapply ZodFacts.default_min_number_field; [| | |exact Hv]; reflexivity ].

Ltac find_report Hv :=
  first
    [ apply ZodFacts.report_later; report_field Hv
    | apply ZodFacts.report_earlier; find_report Hv ].

(** C4. For each tool and each parameter it declares: when the arguments
    leave out the parameter though it is required, or give it a value of
    another type, or a number below its bound, the call ends with the
    reports of the validation, one of them at that parameter; the callback
    is not run and the world is as before, so no request was issued. *)
Theorem invalid_arguments_never_reach_the_gateway
    (tool : string) (params : list Param) (p : Param)
    (fields : list (string * value)) (w : World) :
  In (tool, params) declared ->
  In p params ->
  violates p (property fields (param_name p)) ->
  exists issues issue,
    callTool tool (Obj fields) w = (InvalidArguments issues, w)
    /\ In issue issues
    /\ path issue = [param_name p]
    /\ requests (trace (snd (callTool tool (Obj fields) w))) = requests (trace w).
Proof.
  intros Htool Hp Hv.
  cut (exists issues issue,
         callTool tool (Obj fields) w = (InvalidArguments issues, w)
         /\ In issue issues /\ path issue = [param_name p]).
  { intros (issues & issue & E & Hin & Hpath). exists issues, issue.
    rewrite E. repeat split; assumption. }
  unfold declared in Htool. cbn [In] in Htool.
  repeat (destruct Htool as [Htool | Htool];
          [injection Htool as <- <-; cbn [In] in Hp;
           repeat (destruct Hp as [<- | Hp]; [|]); try contradiction
          |]); try contradiction;
    cbn [param_name req opt] in *;
    (eapply callTool_rejects; [reflexivity|]);
    cbn [inputSchema];
    unfold Schemas.list_projects, Schemas.list_tasks, Schemas.list_time_entries,
      Schemas.create_time_entry, Schemas.update_time_entry, Schemas.delete_time_entry,
      z_object;
    rewrite !ZodFacts.issues_of_ap;
    find_report Hv.
Qed.
End DispatchFacts.

Lemma invalid_arguments_never_reach_the_gateway_witness :
  let fields :=
    [ ("workspaceId", Str "w1"); ("userId", Str "u1");
      ("start", Str "2024-01-01T00:00:00Z"); ("end", Str "2024-01-02T00:00:00Z");
      ("page", Num (Finite 0)) ] in
  let w := Sample.world (Some "k") (Sample.respond 200 "[]" (Ok (JArr []))) in
  exists issues issue,
    callTool (host := Sample.host) "list-clockify-time-entries" (Obj fields) w
    = (InvalidArguments issues, w)
    /\ In issue issues
    /\ Zod.path issue = ["page"]
    /\ requests (trace (snd (callTool (host := Sample.host)
                              "list-clockify-time-entries" (Obj fields) w)))
       = requests (trace w).
Proof.
  intros fields w.
  refine (invalid_arguments_never_reach_the_gateway (host := Sample.host)
            (tool := "list-clockify-time-entries")
            (params := [ req "workspaceId" PString; req "userId" PString;
                         req "start" PString; req "end" PString;
                         opt "page" PNumber (Some 1%Q);
                         opt "pageSize" PNumber (Some 1%Q) ])
            (p := opt "page" PNumber (Some 1%Q)) fields w _ _ _).
  - do 4 right. left. reflexivity.
  - do 4 right. left. reflexivity.
  - refine (out_of_range _ (m := 1%Q) (q := 0%Q) _ _ _); reflexivity.
Defined.

(* ================================================================== *)
(** * Further properties *)

(** ** The Gateway, case by case *)

Section GatewayCases.
Context {host : Host}.
Variables (url : string) (method : Method) (body : option Body).

Lemma makeAPIRequest_without_key (w : World) :
  CLOCKIFY_API_KEY w = None \/ CLOCKIFY_API_KEY w = Some "" ->
  makeAPIRequest url method body w = (Throw (Error "Missing Clockify API key"), w).
Proof. intros [H | H]; unfold makeAPIRequest; rewrite H; reflexivity. Qed.

Lemma credential_cases (w : World) :
  (CLOCKIFY_API_KEY w = None \/ CLOCKIFY_API_KEY w = Some "")
  \/ exists c key, CLOCKIFY_API_KEY w = Some (String c key).
Proof.
  destruct (CLOCKIFY_API_KEY w) as [[|c key]|].
  - left. right. reflexivity.
  - right. exists c, key. reflexivity.
  - left. left. reflexivity.
Qed.

(** X1. When [fetch] itself rejects (the network fault [e]), the call
    throws a plain [Error] whose message is the Gateway prefix followed by
    the message of [e]; the one request was issued and no body was read. *)
Theorem transport_fault_is_rewrapped
    (w : World) (c : ascii) (key : string) (e : JsError) :
  CLOCKIFY_API_KEY w = Some (String c key) ->
  network w (api_request (String c key) url method body) = Throw e ->
  makeAPIRequest url method body w
  = (Throw (Error ("Error making Clockify API request: " ++ message e)),
     record (EvFetch (api_request (String c key) url method body)) w).
Proof.
  intros Hkey Hnet. rewrite (makeAPIRequest_with_key _ _ _ w Hkey). cbv zeta.
  rewrite Hnet. reflexivity.
Qed.

(** X2. When the status is an ok status other than 204 and reading the
    body as JSON throws [e] (the body is empty or is not JSON), the call
    throws the Gateway prefix followed by the message of [e]: an ok status
    alone does not make the call succeed. *)
Theorem unparsable_success_body_fails
    (w : World) (c : ascii) (key : string) (response : Response) (e : JsError) :
  CLOCKIFY_API_KEY w = Some (String c key) ->
  network w (api_request (String c key) url method body) = Ok response ->
  200 <= status response <= 299 ->
  status response <> 204 ->
  json_outcome response = Throw e ->
  makeAPIRequest url method body w
  = (Throw (Error ("Error making Clockify API request: " ++ message e)),
     record EvJson (record (EvFetch (api_request (String c key) url method body)) w)).
Proof.
  intros Hkey Hnet Hstatus Hne Hjson.
  rewrite (makeAPIRequest_with_key _ _ _ w Hkey). cbv zeta. rewrite Hnet.
  assert (Hok : ok response = true).
  { unfold ok. apply andb_true_iff. split; apply Z.leb_le; lia. }
  apply Z.eqb_neq in Hne. rewrite Hok, Hne, Hjson. reflexivity.
Qed.

(** X3. Whatever a call throws is a plain [Error] (the class of the
    original failure is lost) and its message is either the missing
    credential text or begins with the Gateway prefix. *)
Theorem gateway_errors_are_prefixed (w : World) (e : JsError) :
  fst (makeAPIRequest url method body w) = Throw e ->
  err_name e = "Error"
  /\ (message e = "Missing Clockify API key"
      \/ exists detail, message e = "Error making Clockify API request: " ++ detail).
Proof.
  destruct (credential_cases w) as [Hno | (c & key & Hkey)].
  - rewrite (makeAPIRequest_without_key w Hno). cbn [fst].
    intros E. injection E as <-. split; [reflexivity|left; reflexivity].
  - rewrite (makeAPIRequest_with_key _ _ _ w Hkey). cbv zeta.
    destruct (network w _) as [response|e0].
    + destruct (ok response).
      * destruct (status response =? 204); [discriminate|].
        destruct (json_outcome response); [discriminate|].
        cbn [fst]. intros E. injection E as <-.
        split; [reflexivity|right; eexists; reflexivity].
      * destruct (text_outcome response); cbn [fst]; intros E; injection E as <-;
          (split; [reflexivity|right; eexists; reflexivity]).
    + cbn [fst]. intros E. injection E as <-.
      split; [reflexivity|right; eexists; reflexivity].
Qed.

(** X4. A call adds to the trace nothing, or one fetch, or one fetch
    followed by one reading of the body, as text or as JSON: it never
    fetches twice and never reads a body twice or both ways. *)
Theorem gateway_fetches_once_reads_once (w : World) :
  exists new,
    trace (snd (makeAPIRequest url method body w)) = (trace w ++ new)%list
    /\ (new = []
        \/ exists req,
             new = [EvFetch req] \/ new = [EvFetch req; EvText]
             \/ new = [EvFetch req; EvJson]).
Proof.
  destruct (credential_cases w) as [Hno | (c & key & Hkey)].
  - rewrite (makeAPIRequest_without_key w Hno). exists []. cbn [snd].
    rewrite app_nil_r. split; [reflexivity|left; reflexivity].
  - rewrite (makeAPIRequest_with_key _ _ _ w Hkey). cbv zeta.
    destruct (network w _) as [response|e0];
      [destruct (ok response);
       [destruct (status response =? 204); [|destruct (json_outcome response)]
       |destruct (text_outcome response)]|];
      cbn [snd record trace]; rewrite <- ?app_assoc; cbn [app];
      eexists; (split; [reflexivity|]); right; eexists; auto.
Qed.

(** X5. A call that returns a value had the credential and an ok status:
    the value is the empty object at 204 and the parsed body otherwise.
    Nothing is returned for a status outside 200 to 299. *)
Theorem gateway_value_comes_from_ok_status (w : World) (v : value) :
  fst (makeAPIRequest url method body w) = Ok v ->
  exists c key response,
    CLOCKIFY_API_KEY w = Some (String c key)
    /\ network w (api_request (String c key) url method body) = Ok response
    /\ 200 <= status response <= 299
    /\ ((status response = 204 /\ v = Obj [])
        \/ (status response <> 204
            /\ exists j, json_outcome response = Ok j /\ v = of_json j)).
Proof.
  destruct (credential_cases w) as [Hno | (c & key & Hkey)].
  - rewrite (makeAPIRequest_without_key w Hno). discriminate.
  - rewrite (makeAPIRequest_with_key _ _ _ w Hkey). cbv zeta.
    destruct (network w _) as [response|e0] eqn:Hnet; [|discriminate].
    destruct (ok response) eqn:Hok;
      [|destruct (text_outcome response); discriminate].
    unfold ok in Hok. apply andb_true_iff in Hok. destruct Hok as [H1 H2].
    apply Z.leb_le in H1. apply Z.leb_le in H2.
    destruct (Z.eqb_spec (status response) 204) as [E204|E204].
    + cbn [fst]. intros E. injection E as <-.
      exists c, key, response. repeat split; try assumption. left. split; trivial.
    + destruct (json_outcome response) as [j|e0] eqn:Hj; [|discriminate].
      cbn [fst]. intros E. injection E as <-.
      exists c, key, response. repeat split; try assumption.
      right. split; [assumption|]. exists j. split; trivial.
Qed.
End GatewayCases.

(* ================================================================== *)
(** ** Requests issued by the handlers *)

Lemma skipn_length_app (A : Type) (a b : list A) : skipn (List.length a) (a ++ b)%list = b.
Proof. induction a as [|x a IH]; [reflexivity|exact IH]. Qed.

Section HandlerRequests.
Context {host : Host}.
Import DateTime.

Lemma snd_bind_ret (A B : Type) (m : M A) (k : A -> B) (w : World) :
  snd (bind m (fun a => ret (k a)) w) = snd (m w).
Proof. unfold bind, ret. destruct (m w) as [[a|e] w']; reflexivity. Qed.

Lemma makeAPIRequest_requests_any
    (url : string) (method : Method) (body : option Body) (w : World) :
  requests (trace (snd (makeAPIRequest url method body w)))
  = (requests (trace w)
       ++ match CLOCKIFY_API_KEY w with
          | Some (String c key) => [api_request (String c key) url method body]
          | _ => []
          end)%list.
Proof.
  destruct (credential_cases w) as [Hno | (c & key & Hkey)].
  - rewrite (makeAPIRequest_without_key url method body w Hno). cbn [snd].
    destruct Hno as [-> | ->]; rewrite app_nil_r; reflexivity.
  - rewrite (makeAPIRequest_requests url method body w Hkey), Hkey. reflexivity.
Qed.

Lemma gateway_one_call
    (call : Invocation) (url : string) (body : option Body) (w : World) :
  match call with
  | CallCreateTimeEntry _ | CallUpdateTimeEntry _ =>
      exists fields, body = Some (BodyObject (Obj fields))
  | _ => body = None
  end ->
  exists new,
    requests (trace (snd (makeAPIRequest url (method_of call) body w)))
    = (requests (trace w) ++ new)%list
    /\ one_call call w new.
Proof.
  intros Hbody. rewrite makeAPIRequest_requests_any.
  eexists. split; [reflexivity|].
  destruct (CLOCKIFY_API_KEY w) as [[|c key]|] eqn:Hkey;
    [left; reflexivity| |left; reflexivity].
  right. exists c, key, url, body. split; [exact Hkey|]. split; [reflexivity|exact Hbody].
Qed.

Lemma handle_requests (call : Invocation) (w : World) :
  exists new,
    requests (trace (snd (handle call w))) = (requests (trace w) ++ new)%list
    /\ one_call call w new.
Proof.
  rewrite handle_wraps_body, snd_responseWrapper.
  destruct call; cbn [handler_body].
  - unfold GetUser.body. rewrite snd_bind_lift.
    apply (gateway_one_call CallGetUser). reflexivity.
  - unfold ListWorkspaces.body. rewrite snd_bind_lift.
    apply (gateway_one_call CallListWorkspaces). reflexivity.
  - unfold ListProjects.body. rewrite snd_bind_lift.
    apply (gateway_one_call (CallListProjects input)). reflexivity.
  - unfold ListTasks.body. rewrite snd_bind_lift.
    apply (gateway_one_call (CallListTasks input)). reflexivity.
  - unfold ListTimeEntries.body. rewrite snd_bind_ret.
    apply (gateway_one_call (CallListTimeEntries input)). reflexivity.
  - unfold CreateTimeEntry.body, CreateTimeEntry.payload.
    unfold bind at 1. unfold lift at 1.
    destruct (toISOString (new_Date (CreateTimeEntry.start input)));
      [destruct (toISOString (new_Date (CreateTimeEntry.end_ input)))|];
      try (exists []; cbn [snd]; rewrite app_nil_r; split; [reflexivity|left; reflexivity]).
    rewrite snd_bind_lift.
    apply (gateway_one_call (CallCreateTimeEntry input)). eexists. reflexivity.
  - unfold UpdateTimeEntry.body, UpdateTimeEntry.payload.
    unfold bind at 1. unfold lift at 1.
    destruct (toISOString (new_Date (UpdateTimeEntry.start input)));
      [destruct (toISOString (new_Date (UpdateTimeEntry.end_ input)))|];
      try (exists []; cbn [snd]; rewrite app_nil_r; split; [reflexivity|left; reflexivity]).
    rewrite snd_bind_lift.
    apply (gateway_one_call (CallUpdateTimeEntry input)). eexists. reflexivity.
  - unfold DeleteTimeEntry.body.
    rewrite (snd_bind_ret _ (fun _ => _)).
    apply (gateway_one_call (CallDeleteTimeEntry input)). reflexivity.
Qed.

Lemma issued_one_call (call : Invocation) (w : World) :
  requests (trace (snd (handle call w))) = (requests (trace w) ++ issued call w)%list
  /\ one_call call w (issued call w).
Proof.
  destruct (handle_requests call w) as [new [E H]].
  unfold issued. rewrite E, skipn_length_app. split; [reflexivity|exact H].
Qed.

(** X7. Every handler, for every input and world, keeps the requests
    issued before it and adds at most one (there is no retry). A request
    it adds carries exactly the four headers of the Gateway, with the
    credential of the environment, which is not empty, as [x-api-key]. *)
Theorem handlers_issue_at_most_one_request (call : Invocation) (w : World) :
  requests (trace (snd (handle call w))) = (requests (trace w) ++ issued call w)%list
  /\ (List.length (issued call w) <= 1)%nat
  /\ (forall req, In req (issued call w) ->
        exists key,
          CLOCKIFY_API_KEY w = Some key /\ key <> ""
          /\ req_headers req
             = [ ("User-Agent", "mcp_clockify/1.0.19");
                 ("Accept", "application/json");
                 ("x-api-key", key);
                 ("Content-Type", "application/json") ]).
Proof.
  destruct (issued_one_call call w) as [E [Hnil | (c & key & url & body & Hkey & Hnew & _)]].
  - split; [exact E|]. rewrite Hnil. split; [cbn; lia|]. intros req [].
  - split; [exact E|]. rewrite Hnew. split; [cbn; lia|].
    intros req [<- | []]. exists (String c key).
    split; [assumption|]. split; [discriminate|reflexivity].
Qed.

(** X8. A request a handler issues has the method of its tool: GET for
    the five reading tools, POST for create, PUT for update, DELETE for
    delete. Only create and update send a body. *)
Theorem issued_request_has_the_method_of_the_tool
    (call : Invocation) (w : World) (req : Request) :
  In req (issued call w) ->
  req_method req = method_of call
  /\ match call with
     | CallCreateTimeEntry _ | CallUpdateTimeEntry _ => exists s, req_body req = Some s
     | _ => req_body req = None
     end.
Proof.
  destruct (issued_one_call call w) as [_ [Hnil | (c & key & url & body & _ & Hnew & Hbody)]].
  - rewrite Hnil. intros [].
  - rewrite Hnew. intros [<- | []]. split; [reflexivity|].
    destruct call; try (rewrite Hbody; reflexivity);
      destruct Hbody as [fields ->]; eexists; reflexivity.
Qed.

(** X9. Without the credential (absent or empty) every tool returns the
    text [Error: Missing Clockify API key] and leaves the world as it was;
    for create and update this needs [start] and [end] to be valid dates,
    since their failure comes first. *)
Theorem missing_credential_reported_by_every_tool (call : Invocation) (w : World) :
  CLOCKIFY_API_KEY w = None \/ CLOCKIFY_API_KEY w = Some "" ->
  match call with
  | CallCreateTimeEntry input =>
      new_Date (CreateTimeEntry.start input) <> None
      /\ new_Date (CreateTimeEntry.end_ input) <> None
  | CallUpdateTimeEntry input =>
      new_Date (UpdateTimeEntry.start input) <> None
      /\ new_Date (UpdateTimeEntry.end_ input) <> None
  | _ => True
  end ->
  handle call w
  = (Ok {| content := [ {| type := "text";
                           text := Some "Error: Missing Clockify API key" |} ] |}, w).
Proof.
  intros Hno Hdates.
  rewrite handle_wraps_body, responseWrapper_spec.
  destruct call; cbn [handler_body];
    unfold GetUser.body, ListWorkspaces.body, ListProjects.body, ListTasks.body,
      ListTimeEntries.body, DeleteTimeEntry.body, CreateTimeEntry.body,
      UpdateTimeEntry.body, CreateTimeEntry.payload, UpdateTimeEntry.payload,
      bind, lift;
    try (rewrite (makeAPIRequest_without_key _ _ _ w Hno); reflexivity).
  - destruct Hdates as [H1 H2].
    destruct (new_Date (CreateTimeEntry.start input)); [|contradiction].
    destruct (new_Date (CreateTimeEntry.end_ input)); [|contradiction].
    cbn [toISOString]. rewrite (makeAPIRequest_without_key _ _ _ w Hno). reflexivity.
  - destruct Hdates as [H1 H2].
    destruct (new_Date (UpdateTimeEntry.start input)); [|contradiction].
    destruct (new_Date (UpdateTimeEntry.end_ input)); [|contradiction].
    cbn [toISOString]. rewrite (makeAPIRequest_without_key _ _ _ w Hno). reflexivity.
Qed.
End HandlerRequests.

(* ================================================================== *)
(** ** Shaping the response *)


Lemma map_completion_ok (A B : Type) (f : A -> Completion B) (g : A -> B) (l : list A) :
  (forall x, In x l -> f x = Ok (g x)) ->
  map_completion f l = Ok (map g l).
Proof.
  induction l as [|x l IH]; intros H; [reflexivity|].
  cbn [map_completion map]. rewrite (H x (or_introl eq_refl)).
  rewrite IH by (intros y Hy; apply H; right; exact Hy). reflexivity.
Qed.

Lemma map_completion_throw (A B : Type) (f : A -> Completion B) (bad : A)
    (e : JsError) (l : list A) :
  f bad = Throw e ->
  (forall x, In x l -> x = bad \/ exists y, f x = Ok y) ->
  In bad l ->
  map_completion f l = Throw e.
Proof.
  intros Hbad. induction l as [|x l IH]; intros Hall Hin; [destruct Hin|].
  cbn [map_completion].
  destruct (Hall x (or_introl eq_refl)) as [-> | [y Hy]].
  - rewrite Hbad. reflexivity.
  - rewrite Hy. destruct Hin as [-> | Hin]; [congruence|].
    rewrite IH; [reflexivity| |exact Hin].
    intros z Hz. apply Hall. right. exact Hz.
Qed.

Section ShapingFacts.
Context {host : Host}.

Lemma gateway_value_shape
    (w : World) (url : string) (method : Method) (body : option Body) (v : value) :
  gateway_returns w url method body v -> v = Obj [] \/ exists j, v = of_json j.
Proof.
  intros [w' E].
  assert (H : fst (makeAPIRequest url method body w) = Ok v) by (rewrite E; reflexivity).
  destruct (credential_cases w) as [Hno | (c & key & Hkey)].
  - rewrite (makeAPIRequest_without_key url method body w Hno) in H. discriminate.
  - rewrite (makeAPIRequest_with_key url method body w Hkey) in H. cbv zeta in H.
    destruct (network w _) as [response|e0]; [|discriminate].
    destruct (ok response); [|destruct (text_outcome response); discriminate].
    destruct (status response =? 204).
    + injection H as <-. left. reflexivity.
    + destruct (json_outcome response) as [j|e0]; [|discriminate].
      injection H as <-. right. exists j. reflexivity.
Qed.

Lemma gateway_value_defined
    (w : World) (url : string) (method : Method) (body : option Body) (v : value) :
  gateway_returns w url method body v -> v <> Undefined.
Proof.
  intros H. destruct (gateway_value_shape H) as [-> | [j ->]];
    [discriminate|apply of_json_defined].
Qed.

Lemma gateway_items_defined
    (w : World) (url : string) (method : Method) (body : option Body)
    (items : list value) :
  gateway_returns w url method body (Arr items) -> ~ In Undefined items.
Proof.
  intros H. destruct (gateway_value_shape H) as [E | [j E]]; [discriminate|].
  destruct j; try discriminate. cbn [of_json] in E. injection E as ->.
  intros Hin. apply in_map_iff in Hin. destruct Hin as [j [Hj _]].
  exact (of_json_defined j Hj).
Qed.

Ltac enter_list_tool call E :=
  rewrite handle_wraps_body, responseWrapper_spec;
  destruct call; try discriminate;
  cbn [handler_body endpoint method_of] in *;
  unfold ListWorkspaces.body, ListProjects.body, ListTasks.body, bind;
  rewrite E; unfold lift, response_map.

(** X10. For the three tools that reduce a list (workspaces, projects,
    tasks): when the Gateway returns something that is not an array (an
    object, a string, a number, a boolean, or the empty object of a 204)
    the tool returns the text [Error: response.map is not a function];
    on [null] it returns the error of reading [map] from [null]. *)
Theorem list_tools_need_an_array
    (call : Invocation) (keys : list string) (w : World) (v : value) :
  reduced_keys call = Some keys ->
  gateway_returns w (endpoint call) GET None v ->
  (forall items, v <> Arr items) ->
  fst (handle call w)
  = Ok (text_result
          (match v with
           | Null => "Error: Cannot read properties of null (reading 'map')"
           | _ => "Error: response.map is not a function"
           end)).
Proof.
  intros Hkeys Hret Hnot.
  pose proof (gateway_value_defined Hret) as Hdef.
  destruct Hret as [w' E].
  enter_list_tool call E;
    (destruct v; try contradiction; try reflexivity;
     exfalso; eapply Hnot; reflexivity).
Qed.

(** X11. For the same three tools: when the Gateway returns an array with
    no [null] in it, the tool returns the array of the reduced items, in
    the same order and of the same length, each item holding exactly the
    kept properties ([id, name], with [workspaceId, billable] for
    projects and [projectId] for tasks) and nothing else of the item. *)
Theorem list_tools_reduce_each_item
    (call : Invocation) (keys : list string) (w : World) (items : list value) :
  reduced_keys call = Some keys ->
  gateway_returns w (endpoint call) GET None (Arr items) ->
  ~ In Null items ->
  fst (handle call w) = Ok (sendResponse "text" (Arr (map (pick keys) items))).
Proof.
  intros Hkeys Hret Hnull.
  pose proof (gateway_items_defined Hret) as Hdef.
  destruct Hret as [w' E].
  enter_list_tool call E; cbn [get];
    (rewrite (map_completion_ok _ (pick keys));
     [injection Hkeys as <-; reflexivity|];
     injection Hkeys as <-;
     intros x Hx; destruct x; try reflexivity; exfalso; auto).
Qed.

(** X12. For the same three tools: one [null] among the items of the
    array makes the whole call fail with the error of reading [id] from
    [null]; no partial list is returned. *)
Theorem list_tools_fail_on_a_null_item
    (call : Invocation) (keys : list string) (w : World) (items : list value) :
  reduced_keys call = Some keys ->
  gateway_returns w (endpoint call) GET None (Arr items) ->
  In Null items ->
  fst (handle call w)
  = Ok (text_result "Error: Cannot read properties of null (reading 'id')").
Proof.
  intros Hkeys Hret Hnull.
  pose proof (gateway_items_defined Hret) as Hdef.
  destruct Hret as [w' E].
  enter_list_tool call E; cbn [get];
    (erewrite (map_completion_throw (bad := Null) _ items);
     [idtac
     |reflexivity
     |intros x Hx; destruct x;
      solve [left; reflexivity | right; eexists; reflexivity | exfalso; auto]
     |exact Hnull]);
    reflexivity.
Qed.
End ShapingFacts.

Section MoreShaping.
Context {host : Host}.
Import DateTime.



(** X14. Listing time entries returns what the Gateway returned, not
    reduced: a JSON string comes back as its own characters and any other
    value as its JSON text. *)
Theorem time_entries_are_passed_through
    (input : ListTimeEntries.Input) (w : World) (v : value) :
  gateway_returns w (endpoint (CallListTimeEntries input)) GET None v ->
  exists s,
    fst (handle (CallListTimeEntries input) w) = Ok (text_result s)
    /\ match v with
       | Str s' => s = s'
       | _ => JSON_stringify v = Some s
       end.
Proof.
  intros Hret. pose proof (gateway_value_defined Hret) as Hdef.
  destruct Hret as [w' E].
  rewrite handle_wraps_body, responseWrapper_spec.
  cbn [handler_body endpoint] in *. unfold ListTimeEntries.body, bind.
  rewrite E. unfold ret. cbn [fst].
  destruct (sendResponse_text v) as [s [Hs Hv]]. exists s. rewrite Hs.
  split; [reflexivity|]. destruct v; try exact Hv. contradiction.
Qed.


(** X16. Create and update: when the request went out and the Gateway
    returned a value that has no [timeInterval] (the empty object of a 204
    is one), the tool returns the error of reading [start] from
    [undefined], although the service accepted the request. *)
Theorem saved_entry_needs_a_time_interval :
  (forall (input : CreateTimeEntry.Input) (w : World) (requestBody v : value),
     CreateTimeEntry.payload input (new_Date (CreateTimeEntry.start input))
       (new_Date (CreateTimeEntry.end_ input)) = Ok requestBody ->
     gateway_returns w (endpoint (CallCreateTimeEntry input)) POST
       (Some (BodyObject requestBody)) v ->
     get v "timeInterval" = Ok Undefined ->
     fst (CreateTimeEntry.handler input w)
     = Ok (text_result "Error: Cannot read properties of undefined (reading 'start')"))
  /\ (forall (input : UpdateTimeEntry.Input) (w : World) (requestBody v : value),
        UpdateTimeEntry.payload input (new_Date (UpdateTimeEntry.start input))
          (new_Date (UpdateTimeEntry.end_ input)) = Ok requestBody ->
        gateway_returns w (endpoint (CallUpdateTimeEntry input)) PUT
          (Some (BodyObject requestBody)) v ->
        get v "timeInterval" = Ok Undefined ->
        fst (UpdateTimeEntry.handler input w)
        = Ok (text_result "Error: Cannot read properties of undefined (reading 'start')")).
Proof.
  split; intros input w requestBody v Hpayload [w' E] Hti.
  - unfold CreateTimeEntry.handler. cbv zeta. rewrite responseWrapper_spec.
    unfold CreateTimeEntry.body. unfold bind at 1. unfold lift at 1.
    rewrite Hpayload. cbn [endpoint] in E. unfold bind. rewrite E. unfold lift.
    destruct v; try discriminate Hti; cbn [get] in *; rewrite ?Hti; try reflexivity.
    injection Hti as ->. reflexivity.
  - unfold UpdateTimeEntry.handler. cbv zeta. rewrite responseWrapper_spec.
    unfold UpdateTimeEntry.body. unfold bind at 1. unfold lift at 1.
    rewrite Hpayload. cbn [endpoint] in E. unfold bind. rewrite E. unfold lift.
    destruct v; try discriminate Hti; cbn [get] in *; rewrite ?Hti; try reflexivity.
    injection Hti as ->. reflexivity.
Qed.
End MoreShaping.

Section FailureText.
Context {host : Host}.
Import DateTime.

(** X17. What the caller reads when the Gateway fails: for every tool,
    the text is [Error: ] followed by the message the Gateway threw (for
    create and update, once the dates were valid and the body was built).
    With X3 this is the missing credential text or the Gateway prefix and
    its detail. *)
Theorem gateway_failure_becomes_the_tool_text :
  (forall (call : Invocation) (w : World) (e : JsError),
     match call with
     | CallCreateTimeEntry _ | CallUpdateTimeEntry _ => False
     | _ => True
     end ->
     fst (makeAPIRequest (endpoint call) (method_of call) None w) = Throw e ->
     fst (handle call w) = Ok (text_result ("Error: " ++ message e)))
  /\ (forall (input : CreateTimeEntry.Input) (w : World) (requestBody : value)
             (e : JsError),
        CreateTimeEntry.payload input (new_Date (CreateTimeEntry.start input))
          (new_Date (CreateTimeEntry.end_ input)) = Ok requestBody ->
        fst (makeAPIRequest (endpoint (CallCreateTimeEntry input)) POST
               (Some (BodyObject requestBody)) w) = Throw e ->
        fst (CreateTimeEntry.handler input w) = Ok (text_result ("Error: " ++ message e)))
  /\ (forall (input : UpdateTimeEntry.Input) (w : World) (requestBody : value)
             (e : JsError),
        UpdateTimeEntry.payload input (new_Date (UpdateTimeEntry.start input))
          (new_Date (UpdateTimeEntry.end_ input)) = Ok requestBody ->
        fst (makeAPIRequest (endpoint (CallUpdateTimeEntry input)) PUT
               (Some (BodyObject requestBody)) w) = Throw e ->
        fst (UpdateTimeEntry.handler input w) = Ok (text_result ("Error: " ++ message e))).
Proof.
  split; [|split].
  - intros call w e Hcall Hthrow.
    rewrite handle_wraps_body, responseWrapper_spec.
    destruct call; try contradiction; cbn [handler_body endpoint method_of] in *;
      unfold GetUser.body, ListWorkspaces.body, ListProjects.body, ListTasks.body,
        ListTimeEntries.body, DeleteTimeEntry.body, bind;
      match goal with
      | H : fst ?call = Throw _ |- _ =>
          destruct call as [[v|e'] w']; cbn [fst] in H;
          [discriminate H|injection H as ->; reflexivity]
      end.
  - intros input w requestBody e Hpayload Hthrow.
    unfold CreateTimeEntry.handler. cbv zeta. rewrite responseWrapper_spec.
    unfold CreateTimeEntry.body. unfold bind at 1. unfold lift at 1.
    rewrite Hpayload. cbn [endpoint] in Hthrow. unfold bind.
    destruct (makeAPIRequest _ POST _ w) as [[v|e'] w']; cbn [fst] in Hthrow;
      [discriminate Hthrow|injection Hthrow as ->; reflexivity].
  - intros input w requestBody e Hpayload Hthrow.
    unfold UpdateTimeEntry.handler. cbv zeta. rewrite responseWrapper_spec.
    unfold UpdateTimeEntry.body. unfold bind at 1. unfold lift at 1.
    rewrite Hpayload. cbn [endpoint] in Hthrow. unfold bind.
    destruct (makeAPIRequest _ PUT _ w) as [[v|e'] w']; cbn [fst] in Hthrow;
      [discriminate Hthrow|injection Hthrow as ->; reflexivity].
Qed.

(** X18. The body of create and update determines the instants: two
    valid pairs of dates give the same request object for one input only
    when they are the same instants. No two instants are sent as the same
    string. *)
Theorem payload_determines_the_instants
    (input : CreateTimeEntry.Input) (t1 t2 t1' t2' : Z) :
  Z.abs t1 <= maxTime -> Z.abs t2 <= maxTime ->
  Z.abs t1' <= maxTime -> Z.abs t2' <= maxTime ->
  CreateTimeEntry.payload input (Some t1) (Some t2)
  = CreateTimeEntry.payload input (Some t1') (Some t2') ->
  t1 = t1' /\ t2 = t2'.
Proof.
  intros H1 H2 H1' H2' E. cbn in E. injection E as E1 E2.
  apply (f_equal UTC_instant) in E1. apply (f_equal UTC_instant) in E2.
  rewrite !DateFacts.UTC_instant_iso_text in E1, E2 by assumption.
  injection E1 as ->. injection E2 as ->. split; reflexivity.
Qed.
End FailureText.

(* ================================================================== *)
(** ** Accepted arguments *)

Section AcceptedArguments.
Import Zod.

(** X19. Defaults of the schemas: listing time entries without [page]
    and [pageSize] runs with page 1 and page size 100, and creating or
    updating an entry without [billable] runs with [billable] true; keys
    the schema does not declare are ignored. *)
Theorem omitted_parameters_take_their_defaults :
  (forall (fields : list (string * value)) (workspace user from to : string),
     property fields "workspaceId" = Str workspace ->
     property fields "userId" = Str user ->
     property fields "start" = Str from ->
     property fields "end" = Str to ->
     property fields "page" = Undefined ->
     property fields "pageSize" = Undefined ->
     Schemas.list_time_entries (Obj fields)
     = Valid {| ListTimeEntries.workspaceId := workspace;
                ListTimeEntries.userId := user;
                ListTimeEntries.start := from;
                ListTimeEntries.end_ := to;
                ListTimeEntries.page := Finite 1;
                ListTimeEntries.pageSize := Finite 100 |})
  /\ (forall (fields : list (string * value)) (workspace text from to project : string),
        property fields "workspaceId" = Str workspace ->
        property fields "billable" = Undefined ->
        property fields "description" = Str text ->
        property fields "start" = Str from ->
        property fields "end" = Str to ->
        property fields "projectId" = Str project ->
        Schemas.create_time_entry (Obj fields)
        = Valid {| CreateTimeEntry.workspaceId := workspace;
                   CreateTimeEntry.billable := true;
                   CreateTimeEntry.description := text;
                   CreateTimeEntry.start := from;
                   CreateTimeEntry.end_ := to;
                   CreateTimeEntry.projectId := project |})
  /\ (forall (fields : list (string * value))
             (entry workspace text from to project : string),
        property fields "timeEntryId" = Str entry ->
        property fields "workspaceId" = Str workspace ->
        property fields "billable" = Undefined ->
        property fields "description" = Str text ->
        property fields "start" = Str from ->
        property fields "end" = Str to ->
        property fields "projectId" = Str project ->
        Schemas.update_time_entry (Obj fields)
        = Valid {| UpdateTimeEntry.timeEntryId := entry;
                   UpdateTimeEntry.workspaceId := workspace;
                   UpdateTimeEntry.billable := true;
                   UpdateTimeEntry.description := text;
                   UpdateTimeEntry.start := from;
                   UpdateTimeEntry.end_ := to;
                   UpdateTimeEntry.projectId := project |}).
Proof.
  split; [|split]; intros;
    unfold Schemas.list_time_entries, Schemas.create_time_entry,
      Schemas.update_time_entry, z_object, field;
    repeat match goal with
           | H : property _ _ = _ |- _ => rewrite H; clear H
           end;
    reflexivity.
Qed.

(** X20. Given values are kept: a [page] and a [pageSize] that are
    finite numbers of at least 1 reach the handler as given (they need
    not be whole numbers), and so does the text of [start] and [end],
    which the schema of this tool does not read as dates. *)
Theorem given_paging_is_kept
    (fields : list (string * value)) (workspace user from to : string) (p s : Q) :
  property fields "workspaceId" = Str workspace ->
  property fields "userId" = Str user ->
  property fields "start" = Str from ->
  property fields "end" = Str to ->
  property fields "page" = Num (Finite p) ->
  property fields "pageSize" = Num (Finite s) ->
  (1 <= p)%Q -> (1 <= s)%Q ->
  Schemas.list_time_entries (Obj fields)
  = Valid {| ListTimeEntries.workspaceId := workspace;
             ListTimeEntries.userId := user;
             ListTimeEntries.start := from;
             ListTimeEntries.end_ := to;
             ListTimeEntries.page := Finite p;
             ListTimeEntries.pageSize := Finite s |}.
Proof.
  intros Hw Hu Hf Ht Hp Hs Hp1 Hs1.
  unfold Schemas.list_time_entries, z_object, field.
  rewrite Hw, Hu, Hf, Ht, Hp, Hs.
  unfold z_default, z_min, z_number, at_least.
  apply Qle_bool_iff in Hp1. apply Qle_bool_iff in Hs1.
  rewrite Hp1, Hs1. reflexivity.
Qed.
End AcceptedArguments.

(* ================================================================== *)
(** ** Instances *)

Lemma transport_fault_is_rewrapped_witness :
  let w := Sample.world (Some "k") (Throw (TypeError "fetch failed")) in
  makeAPIRequest (host := Sample.host) "/user" GET None w
  = (Throw (Error "Error making Clockify API request: fetch failed"),
     record (EvFetch (api_request (host := Sample.host) "k" "/user" GET None)) w).
Proof.
  intro w.
  exact (transport_fault_is_rewrapped (host := Sample.host) "/user" GET None w
           (c := "k"%char) (key := "") (e := TypeError "fetch failed")
           eq_refl eq_refl).
Defined.

Lemma unparsable_success_body_fails_witness :
  let w := Sample.world (Some "k") (Sample.respond 200 "" Sample.no_json) in
  makeAPIRequest (host := Sample.host) "/user" GET None w
  = (Throw (Error "Error making Clockify API request: Unexpected end of JSON input"),
     record EvJson
       (record (EvFetch (api_request (host := Sample.host) "k" "/user" GET None)) w)).
Proof.
  intro w.
  refine (unparsable_success_body_fails (host := Sample.host) "/user" GET None w
            (c := "k"%char) (key := "")
            (response := {| status := 200; text_outcome := Ok "";
                            json_outcome := Sample.no_json |})
            (e := SyntaxError "Unexpected end of JSON input") eq_refl eq_refl _ _ eq_refl).
  - cbn. lia.
  - cbn. discriminate.
Defined.

Lemma gateway_errors_are_prefixed_witness :
  let w := Sample.world (Some "k") (Sample.respond 500 "down" Sample.no_json) in
  let e := Error "Error making Clockify API request: HTTP error! status: 500, response: down" in
  err_name e = "Error"
  /\ (message e = "Missing Clockify API key"
      \/ exists detail, message e = "Error making Clockify API request: " ++ detail).
Proof.
  intros w e.
  exact (gateway_errors_are_prefixed (host := Sample.host) "/user" GET None w (e := e)
           eq_refl).
Defined.

Lemma gateway_value_comes_from_ok_status_witness :
  let w := Sample.world (Some "k") (Sample.respond 200 "[]" (Ok (JArr []))) in
  exists c key response,
    CLOCKIFY_API_KEY w = Some (String c key)
    /\ network w (api_request (host := Sample.host) (String c key) "/workspaces" GET None)
       = Ok response
    /\ 200 <= status response <= 299
    /\ ((status response = 204 /\ Arr [] = Obj [])
        \/ (status response <> 204
            /\ exists j, json_outcome response = Ok j /\ Arr [] = of_json j)).
Proof.
  intro w.
  exact (gateway_value_comes_from_ok_status (host := Sample.host) "/workspaces" GET None w
           (v := Arr []) eq_refl).
Defined.

Lemma handlers_issue_at_most_one_request_witness :
  let w := Sample.world (Some "k") (Sample.respond 200 "{}" (Ok (JObj []))) in
  let req := api_request (host := Sample.host) "k" "/user" GET None in
  In req (issued (host := Sample.host) CallGetUser w)
  /\ exists key,
       CLOCKIFY_API_KEY w = Some key /\ key <> ""
       /\ req_headers req
          = [ ("User-Agent", "mcp_clockify/1.0.19");
              ("Accept", "application/json");
              ("x-api-key", key);
              ("Content-Type", "application/json") ].
Proof.
  intros w req.
  assert (Hin : In req (issued (host := Sample.host) CallGetUser w))
    by (left; reflexivity).
  split; [exact Hin|].
  exact (proj2 (proj2 (handlers_issue_at_most_one_request (host := Sample.host)
                         CallGetUser w))
           req Hin).
Defined.

Lemma issued_request_has_the_method_of_the_tool_witness :
  let w := Sample.world (Some "k") (Sample.respond 201 "{}" (Ok Sample.entry)) in
  let req :=
    api_request (host := Sample.host) "k" "/workspaces/w1/time-entries" POST
      (Some (BodyObject
               (Obj [ ("billable", Bool true);
                      ("description", Str "work");
                      ("start", Str "2024-01-01T09:00:00.000Z");
                      ("end", Str "2024-01-01T17:00:00.000Z");
                      ("projectId", Str "p1") ]))) in
  In req (issued (host := Sample.host) (CallCreateTimeEntry Sample.new_entry) w)
  /\ req_method req = POST
  /\ exists s, req_body req = Some s.
Proof.
  intros w req.
  assert (Hin : In req (issued (host := Sample.host)
                          (CallCreateTimeEntry Sample.new_entry) w))
    by (left; reflexivity).
  split; [exact Hin|].
  exact (issued_request_has_the_method_of_the_tool (host := Sample.host)
           (CallCreateTimeEntry Sample.new_entry) w req Hin).
Defined.

Lemma missing_credential_reported_by_every_tool_witness :
  let w := Sample.world None (Sample.respond 200 "{}" (Ok (JObj []))) in
  let call := CallDeleteTimeEntry {| DeleteTimeEntry.timeEntryId := "e1";
                                     DeleteTimeEntry.workspaceId := "w1" |} in
  handle (host := Sample.host) call w
  = (Ok {| content := [ {| type := "text";
                           text := Some "Error: Missing Clockify API key" |} ] |}, w).
Proof.
  intros w call.
  exact (missing_credential_reported_by_every_tool (host := Sample.host) call w
           (or_introl eq_refl) I).
Defined.

Lemma list_tools_need_an_array_witness :
  let w := Sample.world (Some "k") (Sample.respond 204 "" Sample.no_json) in
  fst (handle (host := Sample.host) CallListWorkspaces w)
  = Ok (text_result "Error: response.map is not a function").
Proof.
  intro w.
  refine (list_tools_need_an_array (host := Sample.host) CallListWorkspaces
            (keys := ["id"; "name"]) (w := w) (v := Obj []) eq_refl _ _).
  - eexists. reflexivity.
  - intros items. discriminate.
Defined.

Lemma list_tools_reduce_each_item_witness :
  let row := JObj [ ("id", JStr "w1"); ("name", JStr "Acme"); ("memberships", JArr []) ] in
  let w := Sample.world (Some "k") (Sample.respond 200 "[]" (Ok (JArr [row]))) in
  fst (handle (host := Sample.host) CallListWorkspaces w)
  = Ok (sendResponse (host := Sample.host) "text"
          (Arr [ Obj [ ("id", Str "w1"); ("name", Str "Acme") ] ])).
Proof.
  intros row w.
  refine (list_tools_reduce_each_item (host := Sample.host) CallListWorkspaces
            (keys := ["id"; "name"]) (w := w) (items := [of_json row]) eq_refl _ _).
  - eexists. reflexivity.
  - intros [H | []]. discriminate H.
Defined.

Lemma list_tools_fail_on_a_null_item_witness :
  let row := JObj [ ("id", JStr "w1"); ("name", JStr "Acme") ] in
  let w := Sample.world (Some "k") (Sample.respond 200 "[]" (Ok (JArr [row; JNull]))) in
  fst (handle (host := Sample.host) CallListWorkspaces w)
  = Ok (text_result "Error: Cannot read properties of null (reading 'id')").
Proof.
  intros row w.
  refine (list_tools_fail_on_a_null_item (host := Sample.host) CallListWorkspaces
            (keys := ["id"; "name"]) (w := w) (items := [of_json row; Null])
            eq_refl _ _).
  - eexists. reflexivity.
  - right. left. reflexivity.
Defined.


Lemma time_entries_are_passed_through_witness :
  let input := {| ListTimeEntries.workspaceId := "w1"; ListTimeEntries.userId := "u1";
                  ListTimeEntries.start := "2024-01-01T00:00:00Z";
                  ListTimeEntries.end_ := "2024-01-02T00:00:00Z";
                  ListTimeEntries.page := Finite 1;
                  ListTimeEntries.pageSize := Finite 100 |} in
  let w := Sample.world (Some "k") (Sample.respond 200 "" (Ok (JStr "none"))) in
  exists s,
    fst (handle (host := Sample.host) (CallListTimeEntries input) w) = Ok (text_result s)
    /\ s = "none".
Proof.
  intros input w.
  refine (time_entries_are_passed_through (host := Sample.host) (input := input)
            (w := w) (v := Str "none") _).
  eexists. reflexivity.
Defined.


Lemma saved_entry_needs_a_time_interval_witness :
  let w := Sample.world (Some "k") (Sample.respond 204 "" Sample.no_json) in
  fst (CreateTimeEntry.handler (host := Sample.host) Sample.new_entry w)
  = Ok (text_result "Error: Cannot read properties of undefined (reading 'start')").
Proof.
  intro w.
  refine (proj1 (saved_entry_needs_a_time_interval (host := Sample.host))
            Sample.new_entry w _ (Obj []) eq_refl _ eq_refl).
  eexists. reflexivity.
Defined.

Lemma gateway_failure_becomes_the_tool_text_witness :
  let w := Sample.world (Some "k") (Throw (TypeError "fetch failed")) in
  fst (handle (host := Sample.host) CallListWorkspaces w)
  = Ok (text_result "Error: Error making Clockify API request: fetch failed").
Proof.
  intro w.
  exact (proj1 (gateway_failure_becomes_the_tool_text (host := Sample.host))
           CallListWorkspaces w
           (Error "Error making Clockify API request: fetch failed") I eq_refl).
Defined.

Lemma payload_determines_the_instants_witness :
  1704099600000 = 1704099600000 /\ 1704128400000 = 1704128400000.
Proof.
  refine (payload_determines_the_instants (input := Sample.new_entry)
            (t1 := 1704099600000) (t2 := 1704128400000)
            (t1' := 1704099600000) (t2' := 1704128400000) _ _ _ _ eq_refl);
    unfold DateTime.maxTime; lia.
Defined.

Lemma omitted_parameters_take_their_defaults_witness :
  let fields :=
    [ ("end", Str "2024-01-02T00:00:00Z"); ("start", Str "2024-01-01T00:00:00Z");
      ("userId", Str "u1"); ("workspaceId", Str "w1"); ("verbose", Bool true) ] in
  Schemas.list_time_entries (Obj fields)
  = Zod.Valid {| ListTimeEntries.workspaceId := "w1";
                 ListTimeEntries.userId := "u1";
                 ListTimeEntries.start := "2024-01-01T00:00:00Z";
                 ListTimeEntries.end_ := "2024-01-02T00:00:00Z";
                 ListTimeEntries.page := Finite 1;
                 ListTimeEntries.pageSize := Finite 100 |}.
Proof.
  intro fields.
  exact (proj1 omitted_parameters_take_their_defaults fields "w1" "u1"
           "2024-01-01T00:00:00Z" "2024-01-02T00:00:00Z"
           eq_refl eq_refl eq_refl eq_refl eq_refl eq_refl).
Defined.

Lemma given_paging_is_kept_witness :
  let fields :=
    [ ("workspaceId", Str "w1"); ("userId", Str "u1");
      ("start", Str "a"); ("end", Str "b");
      ("page", Num (Finite (3 # 2))); ("pageSize", Num (Finite 50)) ] in
  Schemas.list_time_entries (Obj fields)
  = Zod.Valid {| ListTimeEntries.workspaceId := "w1";
                 ListTimeEntries.userId := "u1";
                 ListTimeEntries.start := "a";
                 ListTimeEntries.end_ := "b";
                 ListTimeEntries.page := Finite (3 # 2);
                 ListTimeEntries.pageSize := Finite 50 |}.
Proof.
  intro fields.
  refine (given_paging_is_kept fields (workspace := "w1") (user := "u1") (from := "a")
            (to := "b") (p := 3 # 2) (s := 50)
            eq_refl eq_refl eq_refl eq_refl eq_refl eq_refl _ _);
    apply Qle_bool_iff; reflexivity.
Defined.
